(** * Open WebUI -> Presenton automation: UI-state detection and retry engine

    A shallow embedding of the detection logic of [src/index.ts] (the
    orchestrator [LLMToPresentationAutomator], the [OpenWebUIExtractor]
    and the [PresentonCreator]) together with the properties the
    specification states about it.

    The browser is an external collaborator.  A page is therefore modelled
    by what the code can observe of it: the elements a selector matches
    (or the fact that evaluating the selector raises), the text of the
    document body, and the current URL.  Time is a logical clock in
    milliseconds that [Date.now()] reads and [waitForTimeout] advances. *)

From Stdlib Require Import String Ascii List ZArith Bool Lia PeanoNat DecimalString.
Import ListNotations.

Set Implicit Arguments.
Open Scope string_scope.
Open Scope nat_scope.

(* ===================================================================== *)
(** * JavaScript string primitives used by the source *)
(* ===================================================================== *)

(** A character is one code unit; only code units below 256 are
    represented, so the white space of [String.prototype.trim] is
    TAB, LF, VT, FF, CR, SPACE and NBSP. *)
Definition isWhiteSpace (c : ascii) : bool :=
  let n := nat_of_ascii c in
  ((9 <=? n) && (n <=? 13)) || (n =? 32) || (n =? 160).

(** [s.includes(sub)] *)
Fixpoint includes (s sub : string) : bool :=
  String.prefix sub s ||
  match s with
  | EmptyString => false
  | String _ rest => includes rest sub
  end.

Fixpoint trimStart (s : string) : string :=
  match s with
  | EmptyString => EmptyString
  | String c rest => if isWhiteSpace c then trimStart rest else s
  end.

Fixpoint trimEnd (s : string) : string :=
  match s with
  | EmptyString => EmptyString
  | String c rest =>
      match trimEnd rest with
      | EmptyString => if isWhiteSpace c then EmptyString else String c EmptyString
      | kept => String c kept
      end
  end.

(** [s.trim()] *)
Definition trim (s : string) : string := trimEnd (trimStart s).

Definition newline : ascii := ascii_of_nat 10.

(** [s.split('\n')]: never empty, [''.split('\n')] is [['']]. *)
Fixpoint splitLines (s : string) : list string :=
  match s with
  | EmptyString => [EmptyString]
  | String c rest =>
      if Ascii.eqb c newline then EmptyString :: splitLines rest
      else match splitLines rest with
           | [] => [String c EmptyString]
           | line :: more => String c line :: more
           end
  end.

Definition lowerChar (c : ascii) : ascii :=
  let n := nat_of_ascii c in
  if (65 <=? n) && (n <=? 90) then ascii_of_nat (n + 32) else c.

(** [s.toLowerCase()] on the represented code units (ASCII letters). *)
Fixpoint toLowerCase (s : string) : string :=
  match s with
  | EmptyString => EmptyString
  | String c rest => String (lowerChar c) (toLowerCase rest)
  end.

(** JavaScript truthiness of a [string | null | undefined] value. *)
Definition truthy (o : option string) : bool :=
  match o with
  | Some s => negb (String.eqb s EmptyString)
  | None => false
  end.

(* ===================================================================== *)
(** * Results and the observable page *)
(* ===================================================================== *)

Inductive Error : Type :=
| BrowserNotInitialized   (* 'Browser not initialized. Call initialize() first.' *)
| ChatInputNotFound       (* 'Could not find chat input field. ...' *)
| ExtractionFailed        (* 'Could not extract LLM response from the page. ...' *)
| LocatorFailed           (* an error raised by the browser while querying *)
| CreationFailed.         (* an error raised while driving Presenton *)

Inductive Res (A : Type) : Type :=
| Ok (a : A)
| Err (e : Error).
Arguments Ok {A} a.
Arguments Err {A} e.

(** What the code reads of one element: [textContent()], visibility and
    the enabled state ([isEnabled()], [!btn.disabled]). *)
Record Element : Type := mkElement {
  textContent : option string;
  visible : bool;
  enabled : bool
}.

(** [page.locator(selector)] once it is evaluated ([count()], [first()]):
    the matching elements in document order, or an exception. *)
Inductive Located : Type :=
| Raises
| Matches (els : list Element).

Record Page : Type := mkPage {
  locator : string -> Located;
  (** [document.querySelectorAll] inside [page.evaluate]; [None] when
      [page.evaluate] itself rejects. *)
  evaluate : option (string -> list Element);
  (** [page.textContent('body')]; a loaded document has a body, so the call
      resolves. *)
  bodyText : option string;
  (** [page.url()] *)
  url : string
}.

(** [locator.first()] when [count() > 0]. *)
Definition firstMatch (p : Page) (selector : string) : option Element :=
  match locator p selector with
  | Raises => None
  | Matches [] => None
  | Matches (e :: _) => Some e
  end.

(** Playwright's actionability check: [click()], [fill()] and [type()]
    resolve on an element that is visible and enabled and raise (after
    their time-out) on any other. *)
Definition actionable (e : Element) : bool := visible e && enabled e.

(* ===================================================================== *)
(** * Response extraction ([extractLatestResponse], lines 865-971) *)
(* ===================================================================== *)

Inductive Strategy : Type :=
| BySelector    (* 'Response extracted using selector: ...' *)
| ByFallback    (* 'Response extracted via fallback method' *)
| ByPageText.   (* 'Response extracted from page text' *)

(** The returned string together with the return statement that produced
    it (each one logs its own message). *)
Record Extracted : Type := mkExtracted {
  payload : string;
  provenance : Strategy
}.

(** The double-quote character and a quoted attribute value, for the
    selector literals of the source. *)
Definition dq : string := String (ascii_of_nat 34) EmptyString.
Definition q (s : string) : string := dq ++ s ++ dq.

Definition responseSelectors : list string :=
  [ "[data-testid=" ++ q "message" ++ "]:last-child .content";
    ".message:last-child .content";
    ".chat-message:last-child .text";
    ".assistant-message:last-child";
    ".response:last-child";
    ".message-content:last-child";
    ".prose:last-child";
    ".markdown:last-child";
    ".message:last-child .prose";
    ".message:last-child .markdown";
    "div[data-message-id]:last-child .prose";
    ".message:last-child";
    "[data-testid=" ++ q "message" ++ "]:last-child" ].

(** Strategy 1 (lines 890-905): the first selector, in order, whose first
    match has text that is non-empty after trimming; a selector that
    raises, matches nothing or yields blank text is passed over. *)
Fixpoint readFirstResponse (p : Page) (selectors : list string) : option string :=
  match selectors with
  | [] => None
  | selector :: rest =>
      match firstMatch p selector with
      | Some e =>
          match textContent e with
          | Some text =>
              if 0 <? String.length (trim text) then Some (trim text)
              else readFirstResponse p rest
          | None => readFirstResponse p rest
          end
      | None => readFirstResponse p rest
      end
  end.

Definition selectorStrategy (p : Page) : option string :=
  readFirstResponse p responseSelectors.

Definition messageSelectors : list string :=
  [ ".message"; "[data-testid=" ++ q "message" ++ "]"; ".chat-message"; ".prose" ].

(** The test of line 928 on [msg.textContent?.trim()]. *)
Definition qualifies (text : string) : bool :=
  truthy (Some text) && (50 <? String.length text)
  && negb (includes text "Create a presentation").

Definition trimmedText (msg : Element) : option string :=
  option_map trim (textContent msg).

(** The loop of lines 923-931, [i] running from [messages.length - 1]
    down to [0]; [reversed] is the list of messages read backward. *)
Fixpoint scanBackward (reversed : list Element) : option string :=
  match reversed with
  | [] => None
  | msg :: earlier =>
      match trimmedText msg with
      | Some text => if qualifies text then Some text else scanBackward earlier
      | None => scanBackward earlier
      end
  end.

(** The loop of lines 919-933 over the message selectors: a selector all
    of whose messages are rejected hands over to the next selector. *)
Fixpoint scanContainers (query : string -> list Element) (selectors : list string)
  : option string :=
  match selectors with
  | [] => None
  | selector :: rest =>
      match scanBackward (rev (query selector)) with
      | Some text => Some text
      | None => scanContainers query rest
      end
  end.

(** Strategy 2 (lines 908-945); a rejected [page.evaluate] is caught and
    logged, and a falsy result is not returned. *)
Definition fallbackStrategy (p : Page) : option string :=
  match evaluate p with
  | Some query =>
      match scanContainers query messageSelectors with
      | Some allMessages => if truthy (Some allMessages) then Some allMessages else None
      | None => None
      end
  | None => None
  end.

(** The filter of lines 954-960. *)
Definition looksLikeResponse (line : string) : bool :=
  (100 <? String.length line)
  && negb (includes line "Send a message")
  && negb (includes line "Enter")
  && negb (includes line "Type")
  && negb (includes line "Sign in").

Definition potentialResponses (pageText : string) : list string :=
  filter looksLikeResponse
    (filter (fun line => 0 <? String.length (trim line)) (splitLines pageText)).

(** [xs[xs.length - 1]] for a non-empty array. *)
Definition lastOf (xs : list string) : option string :=
  match rev xs with
  | [] => None
  | x :: _ => Some x
  end.

(** Strategy 3 (lines 947-968). *)
Definition pageTextStrategy (p : Page) : option string :=
  match bodyText p with
  | Some pageText =>
      if truthy (Some pageText) then lastOf (potentialResponses pageText) else None
  | None => None
  end.

Definition extractLatestResponse (p : Page) : Res Extracted :=
  match selectorStrategy p with
  | Some text => Ok (mkExtracted text BySelector)
  | None =>
      match fallbackStrategy p with
      | Some text => Ok (mkExtracted text ByFallback)
      | None =>
          match pageTextStrategy p with
          | Some text => Ok (mkExtracted text ByPageText)
          | None => Err ExtractionFailed
          end
      end
  end.

(* ===================================================================== *)
(** * Login check ([handleLoginIfRequired]) *)
(* ===================================================================== *)

(** [process.env.OPENWEBUI_USERNAME] and [process.env.OPENWEBUI_PASSWORD]. *)
Record Env : Type := mkEnv {
  OPENWEBUI_USERNAME : option string;
  OPENWEBUI_PASSWORD : option string
}.

(** The branch the login check leaves through. *)
Inductive LoginBranch : Type :=
| ProceedWithoutLogin                        (* chat interface detected *)
| PerformLogin (username password : string)  (* [performLogin] is called *)
| SignupIfNeeded                             (* [handleSignupIfNeeded] is called *)
| ContinueAnyway.                            (* neither kind of indicator *)

(** [if (username && password) performLogin(..) else handleSignupIfNeeded()] *)
Definition loginOrSignup (env : Env) : LoginBranch :=
  match OPENWEBUI_USERNAME env, OPENWEBUI_PASSWORD env with
  | Some username, Some password =>
      if truthy (Some username) && truthy (Some password)
      then PerformLogin username password
      else SignupIfNeeded
  | _, _ => SignupIfNeeded
  end.

(** [try { count() > 0 } catch { }]: a selector that raises counts as absent. *)
Definition present (p : Page) (selector : string) : bool :=
  match firstMatch p selector with
  | Some _ => true
  | None => false
  end.

(** The copy of the extractor at lines 213-1078 (URL patterns first, three
    attempts at the chat interface, every query guarded). *)
Module LoginWsl.

Definition loginIndicators : list string :=
  [ "input[type=" ++ q "email" ++ "]";
    "input[type=" ++ q "password" ++ "]";
    "text=Sign in";
    "text=Login";
    "button:has-text(" ++ q "Sign in" ++ ")";
    "form[action*=" ++ q "login" ++ "]";
    ".login-form";
    "#login-form" ].

Definition chatIndicators : list string :=
  [ "textarea[placeholder*=" ++ q "Send a message" ++ "]";
    "textarea[placeholder*=" ++ q "Ask" ++ "]";
    "input[type=" ++ q "text" ++ "][placeholder*=" ++ q "message" ++ "]";
    "textarea[placeholder*=" ++ q "Type" ++ "]";
    "textarea[placeholder*=" ++ q "Enter" ++ "]";
    "textarea[placeholder*=" ++ q "message" ++ "]";
    ".chat-input";
    ".message-input";
    "textarea.w-full";
    "textarea[rows]";
    "div[contenteditable=" ++ q "true" ++ "]" ].

Definition maxAttempts : nat := 3.

Definition isLoginUrl (currentUrl : string) : bool :=
  includes currentUrl "/auth" || includes currentUrl "/login"
  || includes currentUrl "/signin".

(** The [while (!chatAvailable && attempts < maxAttempts)] loop;
    [view k] is the page as the [k]-th attempt sees it (three seconds
    pass between attempts). *)
Fixpoint chatAvailable (view : nat -> Page) (attempts remaining : nat) : bool :=
  match remaining with
  | O => false
  | S remaining' =>
      let attempts := S attempts in
      if existsb (present (view attempts)) chatIndicators then true
      else chatAvailable view attempts remaining'
  end.

(** [view 0] is the page when the URL is read; the login indicators are
    looked up right after the last failed attempt. *)
Definition handleLoginIfRequired (env : Env) (view : nat -> Page) : LoginBranch :=
  if isLoginUrl (url (view 0)) then loginOrSignup env
  else if chatAvailable view 0 maxAttempts then ProceedWithoutLogin
  else if existsb (present (view maxAttempts)) loginIndicators then loginOrSignup env
  else ContinueAnyway.

End LoginWsl.

(** The copy of the extractor at lines 1080-1801 (no URL test, one pass,
    queries not guarded). *)
Module LoginBasic.

Definition loginIndicators : list string :=
  [ "input[type=" ++ q "email" ++ "]";
    "input[type=" ++ q "password" ++ "]";
    "text=Sign in";
    "text=Login";
    "button:has-text(" ++ q "Sign in" ++ ")" ].

Definition chatIndicators : list string :=
  [ "textarea[placeholder*=" ++ q "Send a message" ++ "]";
    "textarea[placeholder*=" ++ q "Ask" ++ "]";
    "input[type=" ++ q "text" ++ "][placeholder*=" ++ q "message" ++ "]";
    ".chat-input";
    ".message-input" ].

(** [for (..) if (await locator(indicator).count() > 0) { found; break }]
    outside any [try]: an exception leaves the function. *)
Fixpoint anyIndicator (p : Page) (indicators : list string) : Res bool :=
  match indicators with
  | [] => Ok false
  | indicator :: rest =>
      match locator p indicator with
      | Raises => Err LocatorFailed
      | Matches [] => anyIndicator p rest
      | Matches (_ :: _) => Ok true
      end
  end.

Definition handleLoginIfRequired (env : Env) (p : Page) : Res LoginBranch :=
  match anyIndicator p chatIndicators with
  | Err e => Err e
  | Ok true => Ok ProceedWithoutLogin
  | Ok false =>
      match anyIndicator p loginIndicators with
      | Err e => Err e
      | Ok true => Ok (loginOrSignup env)
      | Ok false => Ok ContinueAnyway
      end
  end.

End LoginBasic.

(* ===================================================================== *)
(** * Prompt submission ([sendPromptAndGetResponse], identical in both copies) *)
(* ===================================================================== *)

Definition chatInputSelectors : list string :=
  [ "textarea[placeholder*=" ++ q "Send a message" ++ "]";
    "textarea[placeholder*=" ++ q "Ask" ++ "]";
    "input[type=" ++ q "text" ++ "][placeholder*=" ++ q "message" ++ "]";
    "textarea[placeholder*=" ++ q "Type" ++ "]";
    "textarea[placeholder*=" ++ q "Enter" ++ "]";
    "textarea[placeholder*=" ++ q "message" ++ "]";
    ".chat-input textarea";
    ".message-input textarea";
    "#chat-input";
    "textarea:not([placeholder*=" ++ q "search" ++ "]):not([placeholder*=" ++ q "Search" ++ "])";
    "input[type=" ++ q "text" ++ "]:not([placeholder*=" ++ q "search" ++ "]):not([placeholder*="
      ++ q "Search" ++ "])";
    "textarea.w-full";
    "textarea[rows]";
    "div[contenteditable=" ++ q "true" ++ "]" ].

Definition sendButtonSelectors : list string :=
  [ "button[type=" ++ q "submit" ++ "]";
    "button:has-text(" ++ q "Send" ++ ")";
    "button[aria-label*=" ++ q "Send" ++ "]";
    "button[title*=" ++ q "Send" ++ "]";
    ".send-button";
    "button:has(svg)";
    "button[disabled=false]:last-child";
    "button.bg-black";
    "button.rounded-lg" ].

(** Lines 251-282.  Inside the [try]: [waitForSelector], [click], [fill],
    the knowledge selection and [type(prompt)] all act on
    [elements.first()]; any of them raising sends the loop to the next
    selector.  The result is [usedSelector] when [inputFound]. *)
Fixpoint fillChatInput (p : Page) (selectors : list string) : option string :=
  match selectors with
  | [] => None
  | selector :: rest =>
      match firstMatch p selector with
      | Some element => if actionable element then Some selector else fillChatInput p rest
      | None => fillChatInput p rest
      end
  end.

(** Lines 309-323: [if (count() > 0) { await buttons.first().click(); ... break }]
    under [try]; the result is the selector whose button was clicked. *)
Fixpoint clickSendButton (p : Page) (selectors : list string) : option string :=
  match selectors with
  | [] => None
  | selector :: rest =>
      match firstMatch p selector with
      | Some button => if actionable button then Some selector else clickSendButton p rest
      | None => clickSendButton p rest
      end
  end.

(** What the extractor did to the page, in order. *)
Inductive Action : Type :=
| TypePrompt (usedSelector prompt : string)
| ClickSend (selector : string)
| PressEnter.

(** The pages one run of the extractor sees: while the chat input is
    looked up, while the send button is looked up, and after
    [waitForLLMResponse] has returned. *)
Record Session : Type := mkSession {
  inputPage : Page;
  sendPage : Page;
  responsePage : Page
}.

(** [login] is the outcome of [handleLoginIfRequired] (an exception of the
    unguarded copy propagates); [waitForLLMResponse] returns nothing and
    only lets time pass. *)
Definition sendPromptAndGetResponse (login : Res LoginBranch) (s : Session)
    (prompt : string) : list Action * Res Extracted :=
  match login with
  | Err e => ([], Err e)
  | Ok _ =>
      match fillChatInput (inputPage s) chatInputSelectors with
      | None => ([], Err ChatInputNotFound)
      | Some usedSelector =>
          let sent :=
            match clickSendButton (sendPage s) sendButtonSelectors with
            | Some selector => ClickSend selector
            | None => PressEnter
            end in
          ([TypePrompt usedSelector prompt; sent], extractLatestResponse (responsePage s))
      end
  end.

(* ===================================================================== *)
(** * The orchestrator's demo response ([generateDemoResponse], lines 82-118) *)
(* ===================================================================== *)

Definition aiInEducationDemo : string :=
"# Benefits of AI in Education

## 1. Personalized Learning
AI can adapt to individual student needs, providing customized learning paths and content that matches each student's pace and learning style.

## 2. Intelligent Tutoring Systems
AI-powered tutoring systems can provide 24/7 support to students, offering immediate feedback and guidance on complex topics.

## 3. Automated Assessment and Grading
AI can streamline the grading process, providing faster feedback to students and freeing up teachers' time for more meaningful interactions.

## 4. Enhanced Accessibility
AI tools can make education more accessible through features like real-time transcription, language translation, and adaptive interfaces for students with disabilities.

## 5. Data-Driven Insights
AI analytics can help educators identify learning patterns, predict student performance, and make informed decisions about curriculum and instruction.

These advancements in AI technology are revolutionizing the educational landscape, making learning more effective, efficient, and inclusive for all students.".

Definition genericDemoHead : string := "# Presentation: ".

Definition genericDemoTail : string :=
"

## Introduction
This is a demonstration of the automated presentation creation system using AI-generated content.

## Key Points
- Point 1: Relevant information about the topic
- Point 2: Supporting details and examples
- Point 3: Benefits and applications

## Conclusion
The automation successfully demonstrates the integration between LLM responses and presentation creation.".

Definition generateDemoResponse (prompt : string) : string :=
  if includes (toLowerCase prompt) "ai in education" then aiInEducationDemo
  else genericDemoHead ++ prompt ++ genericDemoTail.

(* ===================================================================== *)
(** * The orchestrator ([LLMToPresentationAutomator], lines 10-161) *)
(* ===================================================================== *)

(** What one run of the workflow meets.  [parseResponseToPresentationData]
    is a pure, total function of the response text, so the creation stage
    [creator.createPresentation(parse(llmResponse))] is given as a function
    of that text. *)
Record World : Type := mkWorld {
  browser : bool;                        (* [this.browser] is set *)
  login : Res LoginBranch;               (* outcome of [handleLoginIfRequired] *)
  session : Session;
  createPresentation : string -> Res unit
}.

(** The stages of [automateFullWorkflow], as its log shows them. *)
Inductive Stage : Type :=
| Extracting (prompt : string)       (* 'Extracting response from Open WebUI...' *)
| UsingDemoResponse (error : Error)  (* 'Using demo response for presentation creation...' *)
| Parsing (llmResponse : string)     (* 'Parsing response into presentation format...' *)
| Creating (llmResponse : string)    (* 'Creating presentation in Presenton...' *)
| Completed.                         (* 'AUTOMATION COMPLETED SUCCESSFULLY!' *)

Definition extractFromOpenWebUI (w : World) (prompt : string) : Res string :=
  if browser w then
    match snd (sendPromptAndGetResponse (login w) (session w) prompt) with
    | Ok response => Ok (payload response)
    | Err e => Err e
    end
  else Err BrowserNotInitialized.

Definition createPresentationInPresenton (w : World) (llmResponse : string) : Res unit :=
  if browser w then createPresentation w llmResponse
  else Err BrowserNotInitialized.

Definition automateFullWorkflow (w : World) (prompt : string) : list Stage * Res unit :=
  let '(caught, llmResponse) :=
    match extractFromOpenWebUI w prompt with
    | Ok response => ([], response)
    | Err error => ([UsingDemoResponse error], generateDemoResponse prompt)
    end in
  let stages := (Extracting prompt :: caught ++ [Parsing llmResponse; Creating llmResponse])%list in
  match createPresentationInPresenton w llmResponse with
  | Ok _ => ((stages ++ [Completed])%list, Ok tt)
  | Err e => (stages, Err e)
  end.

(** The workflow reached the presentation-creation stage. *)
Definition reachedCreation (stages : list Stage) : bool :=
  existsb (fun st => match st with Creating _ => true | _ => false end) stages.

(* ===================================================================== *)
(** * Presenton: the generate-button cascade (lines 2010-2059) *)
(* ===================================================================== *)

Definition generateButtons : list string :=
  [ "button:has-text(" ++ q "Generate" ++ ")";
    "button:has-text(" ++ q "Create" ++ ")";
    "button:has-text(" ++ q "Build" ++ ")";
    "button:has-text(" ++ q "Make" ++ ")";
    "button:has-text(" ++ q "Process" ++ ")";
    "button:has-text(" ++ q "Convert" ++ ")";
    "button:has-text(" ++ q "Transform" ++ ")";
    "button:has-text(" ++ q "Submit" ++ ")";
    "button:has-text(" ++ q "Next" ++ ")";
    "button[type=" ++ q "submit" ++ "]";
    ".generate-btn";
    ".create-btn";
    ".submit-btn";
    "button[aria-label*=" ++ q "Generate" ++ "]";
    "button[aria-label*=" ++ q "Create" ++ "]";
    "button[aria-label*=" ++ q "Next" ++ "]" ].

(** [if (count() > 0) { if (await button.first().isEnabled())
    { await button.first().click(); return } }] under [try]; the result is
    the selector whose button was clicked, [None] for
    'No generate button found'. *)
Fixpoint clickGenerateButton (p : Page) (selectors : list string) : option string :=
  match selectors with
  | [] => None
  | buttonSelector :: rest =>
      match firstMatch p buttonSelector with
      | Some button =>
          if enabled button then
            if actionable button then Some buttonSelector
            else clickGenerateButton p rest
          else clickGenerateButton p rest
      | None => clickGenerateButton p rest
      end
  end.

Definition findAndClickGenerateButton (p : Page) : option string :=
  clickGenerateButton p generateButtons.

(* ===================================================================== *)
(** * Polling loops *)
(* ===================================================================== *)

Open Scope Z_scope.

Inductive PollOutcome : Type := Satisfied | TimedOut.

(** One run of a polling loop: how it ended, the clock when the loop was
    left, the clock readings at which the predicate was evaluated and
    those at which the wait between two ticks was started. *)
Record PollRun : Type := mkPollRun {
  outcome : PollOutcome;
  finishedAt : Z;
  evaluatedAt : list Z;
  sleptAt : list Z
}.

Section Poll.

(** The page as a function of the clock: whether the completion test
    succeeds when evaluated at [t], how long evaluating it takes, and
    by how much a wait started at [t] overruns the requested delay. *)
Variable holds : Z -> bool.
Variable cost : Z -> Z.
Variable lag : Z -> Z.

Variables maxWaitTime interval startTime : Z.

(** The clock at the next loop head after a failed test at [t]: the
    test took [cost t], then [waitForTimeout(interval)] overran by [lag]. *)
Definition wake (t : Z) : Z := t + cost t + interval + lag (t + cost t).

(** The loop shared by lines 2835-2853 and 3165-3247:
    [while (Date.now() - startTime < maxWaitTime && !done)
       { if (test) { done = true; break }  await waitForTimeout(interval) }].
    [now] is [Date.now()] at the loop head; [fuel] bounds the number of
    loop heads. *)
Fixpoint pollLoop (fuel : nat) (now : Z) (evals sleeps : list Z) : option PollRun :=
  match fuel with
  | O => None
  | S fuel' =>
      if now - startTime <? maxWaitTime then
        if holds now then
          Some (mkPollRun Satisfied (now + cost now) (rev (now :: evals)) (rev sleeps))
        else
          pollLoop fuel' (wake now) (now :: evals) (now + cost now :: sleeps)
      else Some (mkPollRun TimedOut now (rev evals) (rev sleeps))
  end.

(** The clock at the [n]-th loop head after [now] when every test in
    between fails, and the first [n] loop heads from [now] on. *)
Fixpoint headAfter (n : nat) (now : Z) : Z :=
  match n with
  | O => now
  | S n' => headAfter n' (wake now)
  end.

Fixpoint loopHeads (n : nat) (now : Z) : list Z :=
  match n with
  | O => []
  | S n' => now :: loopHeads n' (wake now)
  end.

Definition poll (fuel : nat) : option PollRun := pollLoop fuel startTime [] [].

End Poll.

(** [waitForPresentationPageRedirect] (lines 2828-2863): the test reads
    [page.url()], which takes no time; after a detected redirect the
    function waits three more seconds. *)
Definition isPresentationUrl (currentUrl : string) : bool :=
  includes currentUrl "/presentation" && includes currentUrl "id=".

Definition waitForPresentationPageRedirect (urlAt : Z -> string) (lag : Z -> Z)
    (fuel : nat) (startTime : Z) : option PollRun :=
  match poll (fun t => isPresentationUrl (urlAt t)) (fun _ => 0) lag 60000 2000 startTime fuel with
  | Some run =>
      match outcome run with
      | Satisfied =>
          Some (mkPollRun Satisfied (finishedAt run + 3000 + lag (finishedAt run))
                          (evaluatedAt run) (sleptAt run))
      | TimedOut => Some run
      end
  | None => None
  end.

(** [waitForGeneratePresentationButtonToBeReady] (lines 3155-3286). *)
Definition isGenerateText (text : string) : bool :=
  (includes text "generate" && includes text "presentation")
  || (includes text "create" && includes text "presentation")
  || (includes text "build" && includes text "presentation").

(** Lines 3167-3174: the buttons that are visible and have text, with
    their text trimmed. *)
Definition buttonStates (allButtons : list Element) : list Element :=
  filter (fun btn => truthy (textContent btn) && visible btn)
    (map (fun btn => mkElement (trimmedText btn) (visible btn) (enabled btn)) allButtons).

(** Lines 3182-3225: the first state whose text names the generate button
    and which is enabled; a disabled one is logged and passed over. *)
Fixpoint readyButton (states : list Element) : option string :=
  match states with
  | [] => None
  | btnState :: rest =>
      match textContent btnState with
      | Some text =>
          if isGenerateText (toLowerCase text) && enabled btnState then Some text
          else readyButton rest
      | None => readyButton rest
      end
  end.

(** Lines 3196-3213: the first button whose trimmed text is that of the
    ready state is clicked; [buttonClicked] stays false when there is
    none or the click raises. *)
Fixpoint clickByText (buttons : list Element) (text : string) : bool :=
  match buttons with
  | [] => false
  | button :: rest =>
      match textContent button with
      | Some buttonText =>
          if truthy (Some buttonText) && String.eqb (trim buttonText) text
          then actionable button
          else clickByText rest text
      | None => clickByText rest text
      end
  end.

(** One tick: the value of [buttonClicked] after it. *)
Definition generateButtonTick (allButtons : list Element) : bool :=
  match readyButton (buttonStates allButtons) with
  | Some text => clickByText allButtons text
  | None => false
  end.

(** The function returns [buttonClicked]. *)
Definition waitForGeneratePresentationButtonToBeReady (buttonsAt : Z -> list Element)
    (cost lag : Z -> Z) (fuel : nat) (startTime : Z) : option PollRun :=
  poll (fun t => generateButtonTick (buttonsAt t)) cost lag 900000 10000 startTime fuel.

Close Scope Z_scope.

(* ===================================================================== *)
(** * Response text to slides ([parseResponseToPresentationData], lines 120-154) *)
(* ===================================================================== *)

(** [SlideData] and [PresentationData] of [types/presentation.ts]. *)
Record SlideData : Type := mkSlide {
  slideTitle : string;       (* [title] *)
  content : string
}.

Record PresentationData : Type := mkPresentation {
  title : string;
  slides : list SlideData
}.

Definition nl : string := String newline EmptyString.

Definition isDigit (c : ascii) : bool :=
  let n := nat_of_ascii c in (48 <=? n) && (n <=? 57).

(** [\s+] at the start of [s]: what follows the match, the match being
    greedy. *)
Definition afterSpaces (s : string) : option string :=
  match s with
  | String c _ => if isWhiteSpace c then Some (trimStart s) else None
  | EmptyString => None
  end.

(** [/^#{1,2}\s+/]: what follows the match.  After two hashes the white
    space must follow at once; giving one hash back cannot help, the next
    character being a hash. *)
Definition hashPrefix (line : string) : option string :=
  match line with
  | String "#"%char (String "#"%char rest) => afterSpaces rest
  | String "#"%char rest => afterSpaces rest
  | _ => None
  end.

Fixpoint dropDigits (s : string) : string :=
  match s with
  | EmptyString => EmptyString
  | String c rest => if isDigit c then dropDigits rest else s
  end.

(** [/^\d+\.\s+/]: what follows the match. *)
Definition numberPrefix (line : string) : option string :=
  match line with
  | String c _ =>
      if isDigit c then
        match dropDigits line with
        | String "."%char rest => afterSpaces rest
        | _ => None
        end
      else None
  | EmptyString => None
  end.

(** [line.match(/^#{1,2}\s+/) || line.match(/^\d+\.\s+/)] *)
Definition isSlideTitle (line : string) : bool :=
  match hashPrefix line, numberPrefix line with
  | None, None => false
  | _, _ => true
  end.

(** [line.replace(re, '')] for an anchored [re]. *)
Definition replacePrefix (re : string -> option string) (line : string) : string :=
  match re line with
  | Some rest => rest
  | None => line
  end.

(** [line.replace(/^#{1,2}\s+/, '').replace(/^\d+\.\s+/, '')] *)
Definition slideTitleOf (line : string) : string :=
  replacePrefix numberPrefix (replacePrefix hashPrefix line).

(** One turn of the loop of lines 129-144 on [lines[i]]; the state is
    [slides] and [currentSlide]. *)
Definition parseStep (state : list SlideData * option SlideData) (rawLine : string)
  : list SlideData * option SlideData :=
  let '(slides, currentSlide) := state in
  let line := trim rawLine in
  if isSlideTitle line then
    (match currentSlide with
     | Some slide => (slides ++ [slide])%list
     | None => slides
     end,
     Some (mkSlide (slideTitleOf line) EmptyString))
  else
    match currentSlide with
    | Some slide => (slides, Some (mkSlide (slideTitle slide) (content slide ++ line ++ nl)))
    | None => (slides, None)
    end.

(** [response.split('\n').filter(line => line.trim() !== '')] *)
Definition nonBlankLines (response : string) : list string :=
  filter (fun line => negb (String.eqb (trim line) EmptyString)) (splitLines response).

Definition parseResponseToPresentationData (response : string) : PresentationData :=
  let lines := nonBlankLines response in
  let title :=
    match lines with
    | first :: _ => if truthy (Some first) then first else "Generated Presentation"
    | [] => "Generated Presentation"
    end in
  let '(slides, currentSlide) := fold_left parseStep (tl lines) ([], None) in
  let slides :=
    match currentSlide with
    | Some slide => (slides ++ [slide])%list
    | None => slides
    end in
  mkPresentation title
    match slides with
    | [] => [mkSlide "Content" response]
    | _ :: _ => slides
    end.

(** The slides of a loop state once [currentSlide] is pushed (lines 146-148). *)
Definition committed (state : list SlideData * option SlideData) : list SlideData :=
  match snd state with
  | Some slide => (fst state ++ [slide])%list
  | None => fst state
  end.

(** The lines of a response, after its first non-blank line, that start a
    slide. *)
Definition titleLines (lines : list string) : list string :=
  filter (fun line => isSlideTitle (trim line)) lines.

(* ===================================================================== *)
(** * Slides to the text given to Presenton ([formatDataForPresenton], lines 1998-2008) *)
(* ===================================================================== *)

(** [String(n)] for a natural number. *)
Definition decimal (n : nat) : string := NilEmpty.string_of_uint (Nat.to_uint n).

(** The [forEach] of lines 2002-2005, [formatted] being the text so far. *)
Fixpoint formatSlides (index : nat) (slides : list SlideData) (formatted : string) : string :=
  match slides with
  | [] => formatted
  | slide :: rest =>
      formatSlides (S index) rest
        (formatted ++ "## Slide " ++ decimal (index + 1) ++ ": " ++ slideTitle slide ++ nl ++ nl
                   ++ content slide ++ nl ++ nl)
  end.

Definition formatDataForPresenton (data : PresentationData) : string :=
  formatSlides 0 (slides data) ("# " ++ title data ++ nl ++ nl).

(** The text of one slide in the formatted deck, [number] being its
    position counted from 1. *)
Definition slideBlock (number : nat) (slide : SlideData) : string :=
  "## Slide " ++ decimal number ++ ": " ++ slideTitle slide ++ nl ++ nl
  ++ content slide ++ nl ++ nl.

(* ===================================================================== *)
(** * Presenton: entering the content (lines 1837-1996) *)
(* ===================================================================== *)

Definition textInputSelectors : list string :=
  [ "textarea";
    "input[type=" ++ q "text" ++ "]";
    ".text-input";
    ".content-input";
    "[contenteditable=" ++ q "true" ++ "]";
    "input[placeholder*=" ++ q "text" ++ "]";
    "textarea[placeholder*=" ++ q "content" ++ "]" ].

Definition actionButtons : list string :=
  [ "button:has-text(" ++ q "Add Text" ++ ")";
    "button:has-text(" ++ q "Paste Content" ++ ")";
    "button:has-text(" ++ q "Input" ++ ")";
    ".add-content";
    ".text-option" ].

Definition createButtons : list string :=
  [ "button:has-text(" ++ q "Create" ++ ")";
    "button:has-text(" ++ q "Generate" ++ ")";
    "button:has-text(" ++ q "New" ++ ")";
    "button:has-text(" ++ q "Start" ++ ")";
    ".create-btn";
    ".generate-btn" ].

(** Lines 1896-1917: [if (count() > 0) { await input.first().clear();
    await input.first().fill(formattedData); inputFound = true; break }]
    under [try]; the result is the selector that was filled. *)
Fixpoint fillTextInput (p : Page) (selectors : list string) : option string :=
  match selectors with
  | [] => None
  | selector :: rest =>
      match firstMatch p selector with
      | Some input => if actionable input then Some selector else fillTextInput p rest
      | None => fillTextInput p rest
      end
  end.

(** [await button.click()] on a locator that is not narrowed by
    [first()]: Playwright's strict mode raises when the locator matches
    more than one element, and the actionability check applies to the
    single match. *)
Definition strictClick (p : Page) (selector : string) : bool :=
  match locator p selector with
  | Matches [button] => actionable button
  | _ => false
  end.

(** Lines 1948-1961 and 1977-1992: [if (count() > 0) { await
    button.click(); ... return }] under [try]; the result is the selector
    whose button was clicked. *)
Fixpoint clickOneOf (p : Page) (selectors : list string) : option string :=
  match selectors with
  | [] => None
  | buttonSelector :: rest =>
      if strictClick p buttonSelector then Some buttonSelector else clickOneOf p rest
  end.

(** What the creator did, in order.  [GenerateStage] stands for the two
    calls [findAndClickGenerateButton(); waitForPresentationGeneration()]
    that end [handlePresentonUploadInterface]. *)
Inductive UploadEvent : Type :=
| ClickCreate (buttonSelector : string)
| ClickAction (buttonSelector : string)
| FillInput (selector formattedData : string)
| GenerateStage.

(** [tryAlternativeUploadMethods] (lines 1932-1962); [again] is the
    outcome of the call [return this.handlePresentonUploadInterface(data)]
    it makes after a click. *)
Definition tryAlternativeUploadMethods (p : Page) (again : option (list UploadEvent))
  : option (list UploadEvent) :=
  match clickOneOf p actionButtons with
  | Some buttonSelector => option_map (cons (ClickAction buttonSelector)) again
  | None => Some []
  end.

(** [handlePresentonUploadInterface] (lines 1880-1930).  The two methods
    call each other; [view k] is the page the [k]-th call of this one
    sees, [fuel] bounds the number of calls, and [None] is a run that has
    not returned within it. *)
Fixpoint handlePresentonUploadInterface (fuel : nat) (view : nat -> Page) (round : nat)
    (data : PresentationData) : option (list UploadEvent) :=
  match fuel with
  | O => None
  | S fuel' =>
      match fillTextInput (view round) textInputSelectors with
      | Some selector =>
          Some [FillInput selector (formatDataForPresenton data); GenerateStage]
      | None =>
          match tryAlternativeUploadMethods (view round)
                  (handlePresentonUploadInterface fuel' view (S round) data) with
          | Some events => Some (events ++ [GenerateStage])%list
          | None => None
          end
      end
  end.

(** [handlePresentonMainInterface] (lines 1964-1996) on the page [entry]. *)
Definition handlePresentonMainInterface (fuel : nat) (entry : Page) (view : nat -> Page)
    (data : PresentationData) : option (list UploadEvent) :=
  match clickOneOf entry createButtons with
  | Some buttonSelector =>
      option_map (cons (ClickCreate buttonSelector))
        (handlePresentonUploadInterface fuel view 0 data)
  | None => handlePresentonUploadInterface fuel view 0 data
  end.

(** [analyzeAndCreatePresentation] (lines 1837-1856). *)
Definition analyzeAndCreatePresentation (fuel : nat) (entry : Page) (view : nat -> Page)
    (data : PresentationData) : option (list UploadEvent) :=
  if includes (url entry) "/upload"
  then handlePresentonUploadInterface fuel view 0 data
  else handlePresentonMainInterface fuel entry view data.

Definition generateStages (events : list UploadEvent) : nat :=
  length (filter (fun ev => match ev with GenerateStage => true | _ => false end) events).

Definition actionClicks (events : list UploadEvent) : nat :=
  length (filter (fun ev => match ev with ClickAction _ => true | _ => false end) events).

(** A round at which [handlePresentonUploadInterface] stops calling
    itself: an input was filled, or no action button could be clicked. *)
Definition settles (p : Page) : bool :=
  match fillTextInput p textInputSelectors, clickOneOf p actionButtons with
  | None, Some _ => false
  | _, _ => true
  end.

(* ===================================================================== *)
(** * Presenton: the final generate-button cascade (lines 3298-3348) *)
(* ===================================================================== *)

Definition generateButtonSelectors : list string :=
  [ "button:has-text(" ++ q "Generate Presentation" ++ ")";
    "button:has-text(" ++ q "Create Presentation" ++ ")";
    "button:has-text(" ++ q "Build Presentation" ++ ")";
    "button:has-text(" ++ q "Generate" ++ ")";
    "button:has-text(" ++ q "Create" ++ ")";
    "button:has-text(" ++ q "Continue" ++ ")";
    "button:has-text(" ++ q "Next" ++ ")";
    "button:has-text(" ++ q "Proceed" ++ ")";
    "button[type=" ++ q "submit" ++ "]" ].

(** Line 3328: [isEnabled && isVisible && buttonText && buttonText.trim().length > 0] *)
Definition worthClicking (button : Element) : bool :=
  enabled button && visible button &&
  match textContent button with
  | Some buttonText => truthy (Some buttonText) && (0 <? String.length (trim buttonText))
  | None => false
  end.

(** The loop [for (let i = 0; i < count; i++)] of lines 3320-3341 over
    [buttons.nth(i)]: the first button worth clicking is clicked. *)
Fixpoint firstWorthClicking (buttons : list Element) : option Element :=
  match buttons with
  | [] => None
  | button :: rest => if worthClicking button then Some button else firstWorthClicking rest
  end.

(** The loop of lines 3312-3348 of [findAndClickFinalGenerateButton]; the
    result is the selector and the button clicked when [buttonClicked]. *)
Fixpoint clickFinalGenerateButton (p : Page) (selectors : list string)
  : option (string * Element) :=
  match selectors with
  | [] => None
  | selector :: rest =>
      match locator p selector with
      | Raises => clickFinalGenerateButton p rest
      | Matches buttons =>
          match firstWorthClicking buttons with
          | Some button => Some (selector, button)
          | None => clickFinalGenerateButton p rest
          end
      end
  end.

(* ===================================================================== *)
(** * Presenton: waiting for the outline page (lines 2064-2091) *)
(* ===================================================================== *)

Open Scope Z_scope.

(** The loop [for (let i = 0; i < 60; i++) { await waitForTimeout(1000);
    if (page.url().includes('/outline')) { outlineReady = true; break } }];
    [remaining] counts the turns left, [now] is the clock, [checks] the
    clock readings at which the URL was read.  The result is
    [outlineReady], the clock after the loop and the readings in order. *)
Fixpoint outlineLoop (urlAt : Z -> string) (lag : Z -> Z) (remaining : nat) (now : Z)
    (checks : list Z) : bool * Z * list Z :=
  match remaining with
  | O => (false, now, rev checks)
  | S remaining' =>
      let woken := now + 1000 + lag now in
      if includes (urlAt woken) "/outline" then (true, woken, rev (woken :: checks))
      else outlineLoop urlAt lag remaining' woken (woken :: checks)
  end.

(** Step 1 of [waitForPresentationGeneration]: three seconds, then the loop. *)
Definition waitForOutline (urlAt : Z -> string) (lag : Z -> Z) (startTime : Z)
  : bool * Z * list Z :=
  outlineLoop urlAt lag 60 (startTime + 3000 + lag startTime) [].

Close Scope Z_scope.

(* ===================================================================== *)
(** * Notions used in the statements *)
(* ===================================================================== *)

(** A cascade is exhausted on a page: none of its selectors has a match
    (a selector that raises has none). *)
Definition noMatch (p : Page) (selectors : list string) : Prop :=
  forall selector, In selector selectors -> firstMatch p selector = None.

(** The first match of the selector exists, is visible and is enabled. *)
Definition usableFirst (p : Page) (selector : string) : bool :=
  match firstMatch p selector with
  | Some e => actionable e
  | None => false
  end.

(** [result] is the earliest selector of the cascade whose first match is
    usable, or [None] when no selector has a usable first match. *)
Definition resolvesTo (p : Page) (selectors : list string) (result : option string) : Prop :=
  match result with
  | Some selector =>
      exists before after e,
        selectors = (before ++ selector :: after)%list /\
        firstMatch p selector = Some e /\ visible e = true /\ enabled e = true /\
        forall s, In s before -> usableFirst p s = false
  | None => forall s, In s selectors -> usableFirst p s = false
  end.

(** Every match of a selector, in document order. *)
Definition allMatches (p : Page) (selector : string) : list Element :=
  match locator p selector with
  | Raises => []
  | Matches els => els
  end.

(** The resolver as section 4.1 of the specification words it: 'the first
    visible, non-disabled match found across the cascade, else None',
    every match of every descriptor being a candidate. *)
Definition specResolve (p : Page) (selectors : list string) : option Element :=
  find actionable (flat_map (allMatches p) selectors).

(* ===================================================================== *)
(** * Concrete pages used by the examples *)
(* ===================================================================== *)

(** A page fragment in which exactly one selector matches. *)
Definition only (selector : string) (els : list Element) : string -> list Element :=
  fun asked => if String.eqb asked selector then els else [].

Definition shown (text : string) : Element := mkElement (Some text) true true.

Definition blankPage : Page :=
  mkPage (fun _ => Matches []) (Some (fun _ => [])) (Some "") "http://localhost:3000/".

(** A prompt of the README ('npm run dev ...') and the chat page after it
    was sent: the user's message and a short notice from the assistant sit
    in [.message] containers that are not last children, and no other
    known shape matches. *)
Definition readmePrompt : string :=
  "Generate a presentation on cybersecurity best practices with 6 slides".

Definition echoPage : Page :=
  mkPage (fun _ => Matches [])
         (Some (only ".message" [shown readmePrompt; shown "Sorry, something went wrong."]))
         (Some "Sorry, something went wrong.")
         "http://localhost:3000/c/1".

Definition answer : string :=
  "Phishing, weak passwords and unpatched software remain the three most common entry points for attackers.".

(** The same conversation once the assistant has answered at length. *)
Definition answeredPage : Page :=
  mkPage (fun _ => Matches [])
         (Some (only ".chat-message" [shown "Create a presentation about security"; shown answer]))
         (Some answer)
         "http://localhost:3000/c/1".

(** A chat page with a usable input and nothing else. *)
Definition inputOnlyPage : Page :=
  mkPage (fun asked => Matches (only ".chat-input textarea" [mkElement (Some "") true true] asked))
         (Some (fun _ => [])) (Some "Send a message") "http://localhost:3000/".

(** A run in which the chat input is found, the message is sent, and the
    page the extractor then reads is [response]. *)
Definition sessionEndingOn (response : Page) : Session :=
  mkSession inputOnlyPage inputOnlyPage response.

(** A world whose browser is started, whose session needs no login and in
    which Presenton accepts whatever it is given. *)
Definition worldOf (s : Session) : World :=
  mkWorld true (Ok ProceedWithoutLogin) s (fun _ => Ok tt).

(** The Presenton upload page with two buttons that carry 'Generate': the
    first one is still disabled, the second one is ready. *)
Definition disabledGenerate : Element := mkElement (Some "Generate") true false.
Definition readyGenerate : Element := mkElement (Some "Generate Presentation") true true.

Definition twoButtonsPage : Page :=
  mkPage (fun asked =>
            Matches (only ("button:has-text(" ++ q "Generate" ++ ")")
                          [disabledGenerate; readyGenerate] asked))
         (Some (fun _ => [])) (Some "Generate Generate Presentation")
         "http://localhost:5000/upload".

(** The sign-in page of Open WebUI, on which a chat box is present too. *)
Definition authPage : Page :=
  mkPage (fun asked =>
            if String.eqb asked ("input[type=" ++ q "password" ++ "]")
            then Matches [mkElement (Some "") true true]
            else Matches (only ".chat-input" [mkElement (Some "") true true] asked))
         (Some (fun _ => [])) (Some "Sign in") "http://localhost:3000/auth".

(** The same elements under a URL that carries no login pattern. *)
Definition mixedPage : Page :=
  mkPage (locator authPage) (evaluate authPage) (bodyText authPage) "http://localhost:3000/".

Definition someCredentials : Env := mkEnv (Some "user@example.com") (Some "secret").

(** The Presenton upload page before and after a click on 'Add text':
    first only the action button, then a text area. *)
Definition addTextPage : Page :=
  mkPage (fun asked => Matches (only ".add-content" [shown "Add text"] asked))
         (Some (fun _ => [])) (Some "Add text") "http://localhost:5000/upload".

Definition textareaPage : Page :=
  mkPage (fun asked => Matches (only "textarea" [mkElement (Some "") true true] asked))
         (Some (fun _ => [])) (Some "") "http://localhost:5000/upload".

Definition revealingView (round : nat) : Page :=
  match round with
  | O => addTextPage
  | S _ => textareaPage
  end.

Definition sampleDeck : PresentationData :=
  mkPresentation "Deck" [mkSlide "One" "body"].

(* ===================================================================== *)
(** * Properties of the extraction pipeline *)
(* ===================================================================== *)

Lemma readFirstResponse_nonempty (p : Page) (selectors : list string) (s : string) :
  readFirstResponse p selectors = Some s -> 0 < String.length s.
Proof.
  induction selectors as [| selector rest IH]; simpl; [discriminate |].
  destruct (firstMatch p selector) as [e |]; [| exact IH].
  destruct (textContent e) as [text |]; [| exact IH].
  destruct (0 <? String.length (trim text)) eqn:Hlen; [| exact IH].
  intros H. injection H as <-. now apply Nat.ltb_lt.
Qed.

Lemma qualifies_spec (text : string) :
  qualifies text = true ->
  50 < String.length text /\ includes text "Create a presentation" = false.
Proof.
  unfold qualifies. intros H.
  apply andb_true_iff in H as [H Hinc]. apply andb_true_iff in H as [_ Hlen].
  split; [now apply Nat.ltb_lt | now apply negb_true_iff].
Qed.

Lemma scanBackward_qualifies (reversed : list Element) (s : string) :
  scanBackward reversed = Some s ->
  qualifies s = true /\ exists msg, In msg reversed /\ trimmedText msg = Some s.
Proof.
  induction reversed as [| msg earlier IH]; simpl; [discriminate |].
  destruct (trimmedText msg) as [text |] eqn:Htext.
  - destruct (qualifies text) eqn:Hq.
    + intros H. injection H as <-. split; [exact Hq |]. exists msg. auto.
    + intros H. destruct (IH H) as [Hs [m [Hin Hm]]]. split; [exact Hs |]. exists m. auto.
  - intros H. destruct (IH H) as [Hs [m [Hin Hm]]]. split; [exact Hs |]. exists m. auto.
Qed.

Lemma scanContainers_qualifies (query : string -> list Element)
    (selectors : list string) (s : string) :
  scanContainers query selectors = Some s -> qualifies s = true.
Proof.
  induction selectors as [| selector rest IH]; simpl; [discriminate |].
  destruct (scanBackward (rev (query selector))) as [text |] eqn:Hscan; [| exact IH].
  intros H. injection H as <-. now apply scanBackward_qualifies in Hscan.
Qed.

Lemma fallbackStrategy_qualifies (p : Page) (s : string) :
  fallbackStrategy p = Some s -> qualifies s = true.
Proof.
  unfold fallbackStrategy.
  destruct (evaluate p) as [query |]; [| discriminate].
  destruct (scanContainers query messageSelectors) as [text |] eqn:Hscan; [| discriminate].
  destruct (truthy (Some text)); [| discriminate].
  intros H. injection H as <-. now apply scanContainers_qualifies in Hscan.
Qed.

(** What the structural scan does keep out: text of at most 50 characters
    and text that contains the literal 'Create a presentation'. *)
Lemma fallbackStrategy_filter (p : Page) (s : string) :
  fallbackStrategy p = Some s ->
  50 < String.length s /\ includes s "Create a presentation" = false.
Proof. intros H. now apply qualifies_spec, fallbackStrategy_qualifies with (p := p). Qed.

Lemma lastOf_In (xs : list string) (x : string) : lastOf xs = Some x -> In x xs.
Proof.
  unfold lastOf. destruct (rev xs) as [| y ys] eqn:Hrev; [discriminate |].
  intros H. injection H as <-. apply in_rev. rewrite Hrev. now left.
Qed.

Lemma pageTextStrategy_long (p : Page) (s : string) :
  pageTextStrategy p = Some s -> looksLikeResponse s = true /\ 100 < String.length s.
Proof.
  unfold pageTextStrategy.
  destruct (bodyText p) as [pageText |]; [| discriminate].
  destruct (truthy (Some pageText)); [| discriminate].
  intros H. apply lastOf_In in H. unfold potentialResponses in H.
  apply filter_In in H as [_ H]. split; [exact H |].
  unfold looksLikeResponse in H. repeat (apply andb_true_iff in H as [H _]).
  now apply Nat.ltb_lt.
Qed.

(** The first non-empty strategy wins. *)
Lemma extract_first_wins (p : Page) :
  (forall s, selectorStrategy p = Some s ->
     extractLatestResponse p = Ok (mkExtracted s BySelector)) /\
  (forall s, selectorStrategy p = None -> fallbackStrategy p = Some s ->
     extractLatestResponse p = Ok (mkExtracted s ByFallback)) /\
  (forall s, selectorStrategy p = None -> fallbackStrategy p = None ->
     pageTextStrategy p = Some s ->
     extractLatestResponse p = Ok (mkExtracted s ByPageText)).
Proof.
  unfold extractLatestResponse. repeat split; intros.
  - now rewrite H.
  - now rewrite H, H0.
  - now rewrite H, H0, H1.
Qed.

(** C4.  The three strategies are consulted in the fixed order selector
    cascade, structural scan, page text, all on the same page; a value
    returned by the structural scan means the selector cascade was empty,
    and a value returned from the page text means both earlier strategies
    were empty. *)
Theorem extract_strategy_order (p : Page) (r : Extracted) :
  extractLatestResponse p = Ok r ->
  match provenance r with
  | BySelector => selectorStrategy p = Some (payload r)
  | ByFallback =>
      selectorStrategy p = None /\ fallbackStrategy p = Some (payload r)
  | ByPageText =>
      selectorStrategy p = None /\ fallbackStrategy p = None /\
      pageTextStrategy p = Some (payload r)
  end.
Proof.
  unfold extractLatestResponse.
  destruct (selectorStrategy p) as [s1 |].
  { intros H. injection H as <-. reflexivity. }
  destruct (fallbackStrategy p) as [s2 |].
  { intros H. injection H as <-. simpl. auto. }
  destruct (pageTextStrategy p) as [s3 |]; [| discriminate].
  intros H. injection H as <-. simpl. auto.
Qed.

Lemma extract_strategy_order_witness :
  extractLatestResponse answeredPage = Ok (mkExtracted answer ByFallback) /\
  selectorStrategy answeredPage = None /\
  fallbackStrategy answeredPage = Some answer.
Proof.
  split; [reflexivity |].
  exact (extract_strategy_order answeredPage (r := mkExtracted answer ByFallback) eq_refl).
Defined.

(** C5.  [extractLatestResponse] throws its 'Could not extract LLM
    response' error exactly when all three strategies are empty; it throws
    nothing else, and returns a value as soon as one strategy has one. *)
Theorem extraction_failed_iff_all_empty (p : Page) :
  (extractLatestResponse p = Err ExtractionFailed <->
     selectorStrategy p = None /\ fallbackStrategy p = None /\ pageTextStrategy p = None)
  /\ (forall e, extractLatestResponse p = Err e -> e = ExtractionFailed)
  /\ ((exists s, selectorStrategy p = Some s \/ fallbackStrategy p = Some s
                 \/ pageTextStrategy p = Some s) ->
      exists r, extractLatestResponse p = Ok r).
Proof.
  unfold extractLatestResponse.
  destruct (selectorStrategy p) as [s1 |]; destruct (fallbackStrategy p) as [s2 |];
    destruct (pageTextStrategy p) as [s3 |];
    (split; [split; [discriminate || auto | intros (? & ? & ?); congruence || reflexivity] |]);
    (split; [intros e H; congruence |]);
    try (intros _; eexists; reflexivity).
  intros [s [H | [H | H]]]; discriminate.
Qed.

(** C10.  A returned response is never the empty string: the selector
    cascade returns trimmed text of positive length, the structural scan
    text longer than 50 characters, the page-text mining a line longer
    than 100 characters. *)
Theorem extract_never_empty (p : Page) (r : Extracted) :
  extractLatestResponse p = Ok r ->
  payload r <> EmptyString /\
  match provenance r with
  | BySelector => 0 < String.length (payload r)
  | ByFallback => 50 < String.length (payload r)
  | ByPageText => 100 < String.length (payload r)
  end.
Proof.
  assert (Hpos : forall s, 0 < String.length s -> s <> EmptyString).
  { intros s Hs ->. simpl in Hs. lia. }
  unfold extractLatestResponse.
  destruct (selectorStrategy p) as [s1 |] eqn:H1.
  { intros H. injection H as <-. simpl.
    apply readFirstResponse_nonempty in H1. auto. }
  destruct (fallbackStrategy p) as [s2 |] eqn:H2.
  { intros H. injection H as <-. simpl.
    apply fallbackStrategy_filter in H2 as [H2 _]. split; [apply Hpos; lia | exact H2]. }
  destruct (pageTextStrategy p) as [s3 |] eqn:H3; [| discriminate].
  intros H. injection H as <-. simpl.
  apply pageTextStrategy_long in H3 as [_ H3]. split; [apply Hpos; lia | exact H3].
Qed.

Lemma extract_never_empty_witness :
  payload (mkExtracted answer ByFallback) <> EmptyString /\
  50 < String.length (payload (mkExtracted answer ByFallback)).
Proof.
  exact (extract_never_empty answeredPage (r := mkExtracted answer ByFallback) eq_refl).
Defined.

(** The structural scan returns the last message that passes the test of
    line 928: every later message was rejected. *)
Lemma scanBackward_last (messages : list Element) (s : string) :
  scanBackward (rev messages) = Some s ->
  exists earlier msg later,
    messages = (earlier ++ msg :: later)%list /\ trimmedText msg = Some s /\
    qualifies s = true /\
    forall m, In m later ->
      match trimmedText m with Some t => qualifies t = false | None => True end.
Proof.
  induction messages as [| m ms IH] using rev_ind; [discriminate |].
  rewrite rev_app_distr. simpl.
  destruct (trimmedText m) as [t |] eqn:Ht.
  - destruct (qualifies t) eqn:Hq.
    + intros H. injection H as <-. exists ms, m, []. repeat split; auto.
      intros ? [].
    + intros H. destruct (IH H) as (earlier & msg & later & -> & Hmsg & Hs & Hlater).
      exists earlier, msg, (later ++ [m])%list. rewrite <- app_assoc. repeat split; auto.
      intros m' Hin. apply in_app_or in Hin as [Hin | [<- | []]]; [now apply Hlater |].
      now rewrite Ht.
  - intros H. destruct (IH H) as (earlier & msg & later & -> & Hmsg & Hs & Hlater).
    exists earlier, msg, (later ++ [m])%list. rewrite <- app_assoc. repeat split; auto.
    intros m' Hin. apply in_app_or in Hin as [Hin | [<- | []]]; [now apply Hlater |].
    now rewrite Ht.
Qed.

(** C6.  The test of line 928 compares with the literal
    'Create a presentation', not with the prompt that was sent: for the
    README's prompt 'Generate a presentation on cybersecurity best
    practices with 6 slides' the structural scan returns the user's own
    message, and [sendPromptAndGetResponse] hands it on as the response. *)
Theorem fallback_returns_echoed_prompt :
  fallbackStrategy echoPage = Some readmePrompt /\
  includes readmePrompt readmePrompt = true /\
  includes readmePrompt "Create a presentation" = false /\
  snd (sendPromptAndGetResponse (Ok ProceedWithoutLogin) (sessionEndingOn echoPage) readmePrompt)
    = Ok (mkExtracted readmePrompt ByFallback).
Proof. repeat split; vm_compute; reflexivity. Qed.

(* ===================================================================== *)
(** * Properties of the orchestrator and of prompt submission *)
(* ===================================================================== *)

(** C1 as stated fails.  On a response page where every extraction strategy
    yields nothing the extraction stage raises, and the workflow then
    reaches the creation stage with the demo response and completes. *)
Lemma workflow_continues_after_failed_extraction :
  extractLatestResponse blankPage = Err ExtractionFailed /\
  extractFromOpenWebUI (worldOf (sessionEndingOn blankPage)) readmePrompt
    = Err ExtractionFailed /\
  automateFullWorkflow (worldOf (sessionEndingOn blankPage)) readmePrompt
    = ([ Extracting readmePrompt;
         UsingDemoResponse ExtractionFailed;
         Parsing (generateDemoResponse readmePrompt);
         Creating (generateDemoResponse readmePrompt);
         Completed ],
       Ok tt).
Proof. repeat split; vm_compute; reflexivity. Qed.

(** C1, amended.  When the extraction stage raises, [automateFullWorkflow]
    catches the error, substitutes the demo response generated from the
    prompt and goes on to the creation stage; the outcome of the workflow
    is the outcome of that stage. *)
Theorem failed_extraction_falls_back_to_demo (w : World) (prompt : string) (e : Error) :
  extractFromOpenWebUI w prompt = Err e ->
  let demo := generateDemoResponse prompt in
  let '(stages, result) := automateFullWorkflow w prompt in
  In (UsingDemoResponse e) stages /\
  In (Creating demo) stages /\
  reachedCreation stages = true /\
  result = match createPresentationInPresenton w demo with
           | Ok _ => Ok tt
           | Err e' => Err e'
           end.
Proof.
  intros H. unfold automateFullWorkflow. rewrite H. cbv zeta.
  destruct (createPresentationInPresenton w (generateDemoResponse prompt)) as [[] | e'];
    simpl; intuition.
Qed.

Lemma failed_extraction_falls_back_to_demo_witness :
  let '(stages, result) :=
    automateFullWorkflow (worldOf (sessionEndingOn blankPage)) readmePrompt in
  In (UsingDemoResponse ExtractionFailed) stages /\
  In (Creating (generateDemoResponse readmePrompt)) stages /\
  reachedCreation stages = true /\
  result = match createPresentationInPresenton (worldOf (sessionEndingOn blankPage))
                   (generateDemoResponse readmePrompt) with
           | Ok _ => Ok tt
           | Err e' => Err e'
           end.
Proof.
  exact (failed_extraction_falls_back_to_demo
           (worldOf (sessionEndingOn blankPage)) readmePrompt eq_refl).
Defined.

Lemma noMatch_fillChatInput (p : Page) (selectors : list string) :
  noMatch p selectors -> fillChatInput p selectors = None.
Proof.
  induction selectors as [| selector rest IH]; intros H; simpl; [reflexivity |].
  rewrite (H selector (or_introl eq_refl)). apply IH.
  intros s Hs. apply H. now right.
Qed.

Lemma noMatch_clickSendButton (p : Page) (selectors : list string) :
  noMatch p selectors -> clickSendButton p selectors = None.
Proof.
  induction selectors as [| selector rest IH]; intros H; simpl; [reflexivity |].
  rewrite (H selector (or_introl eq_refl)). apply IH.
  intros s Hs. apply H. now right.
Qed.

Lemma noMatch_readFirstResponse (p : Page) (selectors : list string) :
  noMatch p selectors -> readFirstResponse p selectors = None.
Proof.
  induction selectors as [| selector rest IH]; intros H; simpl; [reflexivity |].
  rewrite (H selector (or_introl eq_refl)). apply IH.
  intros s Hs. apply H. now right.
Qed.

(** Settles a statement about every selector of a literal cascade on a
    concrete page by going through the selectors one by one. *)
Ltac each_selector :=
  let selector := fresh "selector" in
  let Hin := fresh "Hin" in
  intros selector Hin;
  repeat (destruct Hin as [<- | Hin]; [vm_compute; reflexivity |]);
  destruct Hin.

Lemma blankPage_noMatch (selectors : list string) : noMatch blankPage selectors.
Proof. intros selector _. reflexivity. Qed.

(** C2 as stated fails.  On a page where no chat-input selector matches,
    the exhausted cascade ends in the 'Could not find chat input field'
    error, which leaves [sendPromptAndGetResponse] and reaches the
    orchestrator through [extractFromOpenWebUI]. *)
Lemma exhausted_chat_input_cascade_raises :
  noMatch blankPage chatInputSelectors /\
  sendPromptAndGetResponse (Ok ProceedWithoutLogin)
      (mkSession blankPage blankPage blankPage) readmePrompt
    = ([], Err ChatInputNotFound) /\
  extractFromOpenWebUI (worldOf (mkSession blankPage blankPage blankPage)) readmePrompt
    = Err ChatInputNotFound.
Proof.
  split; [apply blankPage_noMatch |]. split; vm_compute; reflexivity.
Qed.

(** C2, amended.  An exhausted send-button cascade is answered locally by
    pressing Enter, and an exhausted response-selector cascade by the next
    extraction strategy; an exhausted chat-input cascade is raised out of
    [sendPromptAndGetResponse] as an error, which the orchestrator
    receives from [extractFromOpenWebUI]. *)
Theorem cascade_exhaustion_handling (w : World) (prompt : string) (branch : LoginBranch) :
  login w = Ok branch ->
  let s := session w in
  (noMatch (inputPage s) chatInputSelectors ->
     sendPromptAndGetResponse (login w) s prompt = ([], Err ChatInputNotFound) /\
     (browser w = true -> extractFromOpenWebUI w prompt = Err ChatInputNotFound)) /\
  (forall usedSelector,
     fillChatInput (inputPage s) chatInputSelectors = Some usedSelector ->
     noMatch (sendPage s) sendButtonSelectors ->
     sendPromptAndGetResponse (login w) s prompt
       = ([TypePrompt usedSelector prompt; PressEnter],
          extractLatestResponse (responsePage s))) /\
  (noMatch (responsePage s) responseSelectors ->
     extractLatestResponse (responsePage s)
       = match fallbackStrategy (responsePage s) with
         | Some text => Ok (mkExtracted text ByFallback)
         | None =>
             match pageTextStrategy (responsePage s) with
             | Some text => Ok (mkExtracted text ByPageText)
             | None => Err ExtractionFailed
             end
         end).
Proof.
  intros Hlogin s. repeat split.
  - unfold sendPromptAndGetResponse. rewrite Hlogin.
    now rewrite (noMatch_fillChatInput H).
  - intros Hb. unfold extractFromOpenWebUI, sendPromptAndGetResponse. fold s.
    rewrite Hb, Hlogin. now rewrite (noMatch_fillChatInput H).
  - intros usedSelector Hfill Hsend. unfold sendPromptAndGetResponse.
    rewrite Hlogin, Hfill. now rewrite (noMatch_clickSendButton Hsend).
  - intros Hsel. unfold extractLatestResponse, selectorStrategy.
    now rewrite (noMatch_readFirstResponse Hsel).
Qed.

Lemma cascade_exhaustion_handling_witness :
  sendPromptAndGetResponse (Ok ProceedWithoutLogin) (sessionEndingOn echoPage) readmePrompt
    = ([TypePrompt ".chat-input textarea" readmePrompt; PressEnter],
       extractLatestResponse echoPage) /\
  extractLatestResponse echoPage = Ok (mkExtracted readmePrompt ByFallback) /\
  extractFromOpenWebUI (worldOf (mkSession blankPage blankPage blankPage)) readmePrompt
    = Err ChatInputNotFound.
Proof.
  pose proof (cascade_exhaustion_handling
                (worldOf (sessionEndingOn echoPage)) readmePrompt eq_refl)
    as (_ & Hsend & Hsel).
  pose proof (cascade_exhaustion_handling
                (worldOf (mkSession blankPage blankPage blankPage)) readmePrompt eq_refl)
    as (Hinput & _).
  split; [| split].
  - apply (Hsend ".chat-input textarea"); [reflexivity |]. each_selector.
  - apply Hsel. intros selector _. reflexivity.
  - apply Hinput; [apply blankPage_noMatch | reflexivity].
Defined.

(* ===================================================================== *)
(** * Properties of the click cascades *)
(* ===================================================================== *)

Lemma usableFirst_spec (p : Page) (selector : string) :
  usableFirst p selector = true ->
  exists e, firstMatch p selector = Some e /\ visible e = true /\ enabled e = true.
Proof.
  unfold usableFirst, actionable.
  destruct (firstMatch p selector) as [e |]; [| discriminate].
  intros H. apply andb_true_iff in H. exists e. tauto.
Qed.

Lemma clickSendButton_resolves (p : Page) (selectors : list string) :
  resolvesTo p selectors (clickSendButton p selectors).
Proof.
  induction selectors as [| selector rest IH]; simpl.
  - intros s [].
  - destruct (usableFirst p selector) eqn:Hu.
    + assert (Hclick : match firstMatch p selector with
                       | Some button =>
                           if actionable button then Some selector
                           else clickSendButton p rest
                       | None => clickSendButton p rest
                       end = Some selector).
      { unfold usableFirst in Hu. destruct (firstMatch p selector); [| discriminate].
        now rewrite Hu. }
      rewrite Hclick. destruct (usableFirst_spec _ _ Hu) as (e & He & Hv & Hen).
      exists [], rest, e. repeat split; auto. intros s [].
    + assert (Hclick : match firstMatch p selector with
                       | Some button =>
                           if actionable button then Some selector
                           else clickSendButton p rest
                       | None => clickSendButton p rest
                       end = clickSendButton p rest).
      { unfold usableFirst in Hu. destruct (firstMatch p selector); [| reflexivity].
        now rewrite Hu. }
      rewrite Hclick. destruct (clickSendButton p rest) as [found |]; simpl in *.
      * destruct IH as (before & after & e & -> & He & Hv & Hen & Hbefore).
        exists (selector :: before), after, e. repeat split; auto.
        intros s [<- | Hs]; auto.
      * intros s [<- | Hs]; auto.
Qed.

(** The enabled test before the click changes nothing: the click itself
    raises on a disabled button. *)
Lemma clickGenerateButton_as_send (p : Page) (selectors : list string) :
  clickGenerateButton p selectors = clickSendButton p selectors.
Proof.
  induction selectors as [| selector rest IH]; simpl; [reflexivity |].
  destruct (firstMatch p selector) as [button |]; [| exact IH].
  unfold actionable. destruct (enabled button), (visible button); simpl; auto.
Qed.

(** C3 as stated fails.  The first match of 'button:has-text("Generate")'
    is disabled and its second match is visible and enabled: the cascade
    looks at [first()] only, goes on to the next selectors and ends with
    'No generate button found', although a visible, enabled match exists. *)
Lemma cascade_ignores_later_matches :
  findAndClickGenerateButton twoButtonsPage = None /\
  specResolve twoButtonsPage generateButtons = Some readyGenerate /\
  In readyGenerate
     (allMatches twoButtonsPage ("button:has-text(" ++ q "Generate" ++ ")")) /\
  actionable readyGenerate = true.
Proof.
  repeat split; try (vm_compute; reflexivity).
  vm_compute. right. left. reflexivity.
Qed.

(** C3, amended.  Each click cascade looks at the first match of each
    descriptor only.  It acts on the first match of the earliest
    descriptor whose first match is visible and enabled, passing over the
    descriptors that raise, match nothing or whose first match is
    invisible or disabled; it finds nothing exactly when no descriptor has
    a visible, enabled first match. *)
Theorem cascade_resolves_first_usable (p : Page) :
  resolvesTo p generateButtons (findAndClickGenerateButton p) /\
  resolvesTo p sendButtonSelectors (clickSendButton p sendButtonSelectors) /\
  (findAndClickGenerateButton p = None <->
     forall s, In s generateButtons -> usableFirst p s = false).
Proof.
  unfold findAndClickGenerateButton. rewrite clickGenerateButton_as_send.
  split; [apply clickSendButton_resolves |]. split; [apply clickSendButton_resolves |].
  pose proof (clickSendButton_resolves p generateButtons) as H.
  split.
  - intros Hnone. now rewrite Hnone in H.
  - intros Hall. destruct (clickSendButton p generateButtons) as [found |]; [| reflexivity].
    destruct H as (before & after & e & Heq & He & Hv & Hen & _).
    assert (Hin : In found generateButtons).
    { rewrite Heq. apply in_or_app. right. now left. }
    specialize (Hall found Hin). unfold usableFirst, actionable in Hall.
    rewrite He, Hv, Hen in Hall. discriminate.
Qed.

(* ===================================================================== *)
(** * Properties of the login check *)
(* ===================================================================== *)

Lemma anyIndicator_guarded (p : Page) (indicators : list string) :
  (forall indicator, In indicator indicators -> locator p indicator <> Raises) ->
  LoginBasic.anyIndicator p indicators = Ok (existsb (present p) indicators).
Proof.
  induction indicators as [| indicator rest IH]; intros H; simpl; [reflexivity |].
  unfold present at 1, firstMatch.
  destruct (locator p indicator) as [| [| e els]] eqn:Hloc.
  - exfalso. now apply (H indicator (or_introl eq_refl)).
  - simpl. apply IH. intros i Hi. apply H. now right.
  - reflexivity.
Qed.

(** C9 as stated fails for the copy that tests the URL first: on the
    sign-in URL, with a password field and a chat box both present and
    credentials configured, [performLogin] is called. *)
Lemma login_url_overrides_chat_indicators :
  existsb (present authPage) LoginWsl.chatIndicators = true /\
  existsb (present authPage) LoginWsl.loginIndicators = true /\
  LoginWsl.handleLoginIfRequired someCredentials (fun _ => authPage)
    = PerformLogin "user@example.com" "secret".
Proof. repeat split; vm_compute; reflexivity. Qed.

(** C9, amended.  When chat indicators are present (whether or not login
    indicators are present too) the login check leaves without logging
    in, provided, in the copy that tests the URL first, that the URL
    carries none of '/auth', '/login', '/signin'; under such a URL that
    copy goes to [performLogin] or to the signup fallback whatever the
    indicators.  The other copy has no URL test (its indicator queries
    are unguarded, so they must not raise). *)
Theorem chat_indicators_take_precedence (env : Env) :
  (forall view,
     LoginWsl.isLoginUrl (url (view 0)) = false ->
     existsb (present (view 1)) LoginWsl.chatIndicators = true ->
     LoginWsl.handleLoginIfRequired env view = ProceedWithoutLogin) /\
  (forall view,
     LoginWsl.isLoginUrl (url (view 0)) = true ->
     LoginWsl.handleLoginIfRequired env view = loginOrSignup env /\
     loginOrSignup env <> ProceedWithoutLogin) /\
  (forall p,
     (forall indicator, In indicator LoginBasic.chatIndicators ->
        locator p indicator <> Raises) ->
     existsb (present p) LoginBasic.chatIndicators = true ->
     LoginBasic.handleLoginIfRequired env p = Ok ProceedWithoutLogin).
Proof.
  split; [| split].
  - intros view Hurl Hchat. unfold LoginWsl.handleLoginIfRequired. rewrite Hurl.
    unfold LoginWsl.maxAttempts. cbn [LoginWsl.chatAvailable]. now rewrite Hchat.
  - intros view Hurl. split.
    + unfold LoginWsl.handleLoginIfRequired. now rewrite Hurl.
    + unfold loginOrSignup.
      destruct (OPENWEBUI_USERNAME env), (OPENWEBUI_PASSWORD env); try discriminate.
      destruct (truthy _ && truthy _); discriminate.
  - intros p Hguard Hchat. unfold LoginBasic.handleLoginIfRequired.
    rewrite (@anyIndicator_guarded p _ Hguard). now rewrite Hchat.
Qed.

Lemma chat_indicators_take_precedence_witness :
  LoginWsl.handleLoginIfRequired someCredentials (fun _ => mixedPage) = ProceedWithoutLogin /\
  LoginBasic.handleLoginIfRequired someCredentials mixedPage = Ok ProceedWithoutLogin /\
  LoginWsl.handleLoginIfRequired someCredentials (fun _ => authPage)
    = loginOrSignup someCredentials.
Proof.
  destruct (chat_indicators_take_precedence someCredentials) as (Hwsl & Hurl & Hbasic).
  split; [| split].
  - apply Hwsl; vm_compute; reflexivity.
  - apply Hbasic; [| vm_compute; reflexivity].
    intros indicator Hin.
    repeat (destruct Hin as [<- | Hin]; [vm_compute; discriminate |]). destruct Hin.
  - apply (Hurl (fun _ => authPage)). vm_compute; reflexivity.
Defined.

(* ===================================================================== *)
(** * Properties of the polling loops *)
(* ===================================================================== *)

Open Scope Z_scope.

Section PollFacts.

Variable holds : Z -> bool.
Variable cost : Z -> Z.
Variable lag : Z -> Z.
Variables maxWaitTime interval startTime : Z.

Let loop := pollLoop holds cost lag maxWaitTime interval startTime.
Let next := wake cost lag interval.
Let head := headAfter cost lag interval.
Let heads := loopHeads cost lag interval.

(** A run that has ended is not changed by more fuel. *)
Lemma pollLoop_more_fuel (fuel : nat) :
  forall now evals sleeps run,
    loop fuel now evals sleeps = Some run ->
    forall fuel', (fuel <= fuel')%nat -> loop fuel' now evals sleeps = Some run.
Proof.
  induction fuel as [| fuel IH]; intros now evals sleeps run Hrun fuel' Hle;
    [discriminate |].
  destruct fuel' as [| fuel']; [lia |].
  simpl in *. destruct (now - startTime <? maxWaitTime); [| exact Hrun].
  destruct (holds now); [exact Hrun |].
  apply IH with (fuel' := fuel') in Hrun; [exact Hrun | lia].
Qed.

(** In every run each wait is started right after an evaluation of the
    test that failed; a satisfied run has one more evaluation, the last. *)
Lemma pollLoop_evaluates_then_sleeps (fuel : nat) :
  forall now evals sleeps run,
    loop fuel now evals sleeps = Some run ->
    exists ticks,
      sleptAt run = (rev sleeps ++ map (fun t => t + cost t) ticks)%list /\
      Forall (fun t => holds t = false) ticks /\
      match outcome run with
      | Satisfied =>
          exists t, evaluatedAt run = (rev evals ++ ticks ++ [t])%list /\
                    holds t = true /\ finishedAt run = t + cost t
      | TimedOut => evaluatedAt run = (rev evals ++ ticks)%list
      end.
Proof.
  induction fuel as [| fuel IH]; intros now evals sleeps run Hrun; [discriminate |].
  simpl in Hrun. destruct (now - startTime <? maxWaitTime).
  - destruct (holds now) eqn:Hnow.
    + injection Hrun as <-. exists []. simpl. rewrite app_nil_r.
      repeat split; auto. exists now. auto.
    + apply IH in Hrun. destruct Hrun as (ticks & Hsl & Hall & Hev).
      exists (now :: ticks). simpl in *. rewrite <- app_assoc in Hsl.
      repeat split; auto.
      destruct (outcome run).
      * destruct Hev as (t & Hev & Ht & Hfin). exists t.
        rewrite <- app_assoc in Hev. auto.
      * now rewrite <- app_assoc in Hev.
  - injection Hrun as <-. exists []. simpl. rewrite !app_nil_r. auto.
Qed.

Hypothesis interval_pos : 0 < interval.
Hypothesis cost_nonneg : forall t, 0 <= cost t.
Hypothesis lag_nonneg : forall t, 0 <= lag t.

Lemma wake_later (t : Z) : t + interval <= next t.
Proof.
  unfold next, wake. pose proof (cost_nonneg t). pose proof (lag_nonneg (t + cost t)). lia.
Qed.

(** With a test that fails at every loop head the loop runs to its
    deadline, given fuel for the heads that fit before it: the test is
    evaluated at the successive loop heads [now], [next now], ... and the
    loop is left at the first head at or past the deadline. *)
Lemma pollLoop_never_holds (fuel : nat) :
  forall now evals sleeps,
    (forall n, holds (head n now) = false) ->
    (1 <= fuel)%nat ->
    startTime + maxWaitTime - now <= (Z.of_nat fuel - 1) * interval ->
    exists n,
      loop fuel now evals sleeps
        = Some (mkPollRun TimedOut (head n now) (rev evals ++ heads n now)
                  (rev sleeps ++ map (fun t => t + cost t) (heads n now))) /\
      maxWaitTime <= head n now - startTime /\
      Forall (fun t => now <= t /\ t - startTime < maxWaitTime) (heads n now) /\
      Z.of_nat n * interval <= head n now - now.
Proof.
  induction fuel as [| fuel IH]; intros now evals sleeps Hnever Hfuel Hroom; [lia |].
  simpl. destruct (now - startTime <? maxWaitTime) eqn:Hhead.
  - apply Z.ltb_lt in Hhead.
    pose proof (Hnever O) as Hnow. unfold head in Hnow. simpl in Hnow. rewrite Hnow.
    pose proof (wake_later now) as Hwake. unfold next in Hwake.
    destruct (IH (wake cost lag interval now) (now :: evals) (now + cost now :: sleeps))
      as (n & Hrun & Hfin & Hall & Hlen).
    + intros n. exact (Hnever (S n)).
    + nia.
    + nia.
    + exists (S n). simpl in Hrun. rewrite <- !app_assoc in Hrun.
      split; [exact Hrun |]. split; [exact Hfin |]. split.
      * constructor; [lia |]. eapply Forall_impl; [| exact Hall].
        simpl. intros t Ht. lia.
      * rewrite Nat2Z.inj_succ. unfold head in *. simpl. lia.
  - apply Z.ltb_ge in Hhead. exists O. simpl. rewrite !app_nil_r.
    repeat split; auto; lia.
Qed.

End PollFacts.

(** C7.  For every time-out and every (positive) interval, a polling run
    whose test fails at every evaluation ends as TimedOut, and not before
    the time-out has elapsed.  The test is evaluated at the start and then
    after each wait of the interval; every evaluation happened at a loop
    head still before the deadline, and the loop is left at the first loop
    head at or past the deadline, one tick after the last evaluation.  The
    redirect wait (60 s, every 2 s) and the generate-button wait (15 min,
    every 10 s) are such runs. *)
Theorem poll_never_satisfied_times_out :
  (forall (holds : Z -> bool) (cost lag : Z -> Z) (maxWaitTime interval startTime : Z),
     0 < interval ->
     (forall t, 0 <= cost t) ->
     (forall t, 0 <= lag t) ->
     (forall n, holds (headAfter cost lag interval n startTime) = false) ->
     exists n,
       let ticks := loopHeads cost lag interval n startTime in
       let fin := headAfter cost lag interval n startTime in
       (forall fuel, (Z.to_nat (maxWaitTime / interval) + 2 <= fuel)%nat ->
          poll holds cost lag maxWaitTime interval startTime fuel
            = Some (mkPollRun TimedOut fin ticks (map (fun t => t + cost t) ticks))) /\
       maxWaitTime <= fin - startTime /\
       Forall (fun t => startTime <= t /\ t - startTime < maxWaitTime) ticks /\
       Z.of_nat n * interval <= fin - startTime) /\
  (forall (urlAt : Z -> string) (lag : Z -> Z) (startTime : Z),
     (forall t, 0 <= lag t) ->
     (forall t, isPresentationUrl (urlAt t) = false) ->
     exists run,
       (forall fuel, (32 <= fuel)%nat ->
          waitForPresentationPageRedirect urlAt lag fuel startTime = Some run) /\
       outcome run = TimedOut /\ 60000 <= finishedAt run - startTime) /\
  (forall (buttonsAt : Z -> list Element) (cost lag : Z -> Z) (startTime : Z),
     (forall t, 0 <= cost t) ->
     (forall t, 0 <= lag t) ->
     (forall t, generateButtonTick (buttonsAt t) = false) ->
     exists run,
       (forall fuel, (92 <= fuel)%nat ->
          waitForGeneratePresentationButtonToBeReady buttonsAt cost lag fuel startTime
            = Some run) /\
       outcome run = TimedOut /\ 900000 <= finishedAt run - startTime).
Proof.
  assert (Hgeneral :
    forall (holds : Z -> bool) (cost lag : Z -> Z) (maxWaitTime interval startTime : Z),
      0 < interval -> (forall t, 0 <= cost t) -> (forall t, 0 <= lag t) ->
      (forall n, holds (headAfter cost lag interval n startTime) = false) ->
      exists n,
        (forall fuel, (Z.to_nat (maxWaitTime / interval) + 2 <= fuel)%nat ->
           poll holds cost lag maxWaitTime interval startTime fuel
             = Some (mkPollRun TimedOut (headAfter cost lag interval n startTime)
                       (loopHeads cost lag interval n startTime)
                       (map (fun t => t + cost t)
                            (loopHeads cost lag interval n startTime)))) /\
        maxWaitTime <= headAfter cost lag interval n startTime - startTime /\
        Forall (fun t => startTime <= t /\ t - startTime < maxWaitTime)
               (loopHeads cost lag interval n startTime) /\
        Z.of_nat n * interval <= headAfter cost lag interval n startTime - startTime).
  { intros holds cost lag maxWaitTime interval startTime Hint Hcost Hlag Hnever.
    set (enough := (Z.to_nat (maxWaitTime / interval) + 2)%nat).
    destruct (@pollLoop_never_holds holds cost lag maxWaitTime interval startTime
                Hint Hcost Hlag enough startTime [] [] Hnever)
      as (n & Hrun & Hfin & Hall & Hlen).
    - unfold enough. lia.
    - unfold enough. rewrite Nat2Z.inj_add.
      destruct (Z.le_gt_cases 0 maxWaitTime) as [Hpos | Hneg].
      + rewrite Z2Nat.id by (apply Z.div_pos; lia).
        pose proof (Z.mod_pos_bound maxWaitTime interval Hint).
        pose proof (Z.div_mod maxWaitTime interval). nia.
      + assert (0 <= Z.of_nat (Z.to_nat (maxWaitTime / interval))) by lia. nia.
    - exists n. simpl in Hrun. split; [| auto].
      intros fuel Hfuel. unfold poll.
      now apply pollLoop_more_fuel with (fuel := enough). }
  split; [exact Hgeneral |]. split.
  - intros urlAt lag startTime Hlag Hnever.
    destruct (Hgeneral (fun t => isPresentationUrl (urlAt t)) (fun _ => 0) lag
                60000 2000 startTime)
      as (n & Hrun & Hfin & _); auto; try lia.
    eexists (mkPollRun TimedOut _ _ _).
    split; [| split; [reflexivity | exact Hfin]].
    intros fuel Hfuel. unfold waitForPresentationPageRedirect.
    rewrite Hrun; [reflexivity |].
    change (Z.to_nat (60000 / 2000) + 2)%nat with 32%nat. exact Hfuel.
  - intros buttonsAt cost lag startTime Hcost Hlag Hnever.
    destruct (Hgeneral (fun t => generateButtonTick (buttonsAt t)) cost lag
                900000 10000 startTime)
      as (n & Hrun & Hfin & _); auto; try lia.
    eexists (mkPollRun TimedOut _ _ _).
    split; [| split; [reflexivity | exact Hfin]].
    intros fuel Hfuel. unfold waitForGeneratePresentationButtonToBeReady.
    apply Hrun. change (Z.to_nat (900000 / 10000) + 2)%nat with 92%nat. exact Hfuel.
Qed.

Lemma poll_never_satisfied_times_out_witness :
  (exists n,
     let ticks := loopHeads (fun _ => 0) (fun _ => 0) 2000 n 0 in
     let fin := headAfter (fun _ => 0) (fun _ => 0) 2000 n 0 in
     (forall fuel, (Z.to_nat (60000 / 2000) + 2 <= fuel)%nat ->
        poll (fun _ => false) (fun _ => 0) (fun _ => 0) 60000 2000 0 fuel
          = Some (mkPollRun TimedOut fin ticks (map (fun t => t + 0) ticks))) /\
     60000 <= fin - 0 /\
     Forall (fun t => 0 <= t /\ t - 0 < 60000) ticks /\
     Z.of_nat n * 2000 <= fin - 0) /\
  (exists run,
     (forall fuel, (32 <= fuel)%nat ->
        waitForPresentationPageRedirect (fun _ => "http://localhost:5000/outline")
          (fun _ => 0) fuel 0 = Some run) /\
     outcome run = TimedOut /\ 60000 <= finishedAt run - 0) /\
  (exists run,
     (forall fuel, (92 <= fuel)%nat ->
        waitForGeneratePresentationButtonToBeReady
          (fun _ => [mkElement (Some "Loading...") true false])
          (fun _ => 0) (fun _ => 0) fuel 0 = Some run) /\
     outcome run = TimedOut /\ 900000 <= finishedAt run - 0).
Proof.
  destruct poll_never_satisfied_times_out as (Hgeneral & Hredirect & Hbutton).
  split; [| split].
  - apply (Hgeneral (fun _ => false) (fun _ => 0) (fun _ => 0) 60000 2000 0).
    + lia.
    + intros t. lia.
    + intros t. lia.
    + intros n. reflexivity.
  - apply (Hredirect (fun _ => "http://localhost:5000/outline") (fun _ => 0) 0).
    + intros t. lia.
    + intros t. vm_compute. reflexivity.
  - apply (Hbutton (fun _ => [mkElement (Some "Loading...") true false])
             (fun _ => 0) (fun _ => 0) 0).
    + intros t. lia.
    + intros t. lia.
    + intros t. vm_compute. reflexivity.
Defined.

(** The run of the redirect wait on a page that stays on the outline:
    thirty evaluations, two seconds apart, and the loop is left at the
    sixtieth second. *)
Example redirect_times_out_at_deadline :
  waitForPresentationPageRedirect (fun _ => "http://localhost:5000/outline") (fun _ => 0) 32 0
    = Some (mkPollRun TimedOut 60000
              (map (fun k => 2000 * Z.of_nat k) (seq 0 30))
              (map (fun k => 2000 * Z.of_nat k) (seq 0 30))).
Proof. vm_compute. reflexivity. Qed.

(** C8.  A polling run whose test succeeds at the first evaluation ends as
    Satisfied at once: one evaluation, no wait.  For the redirect wait the
    only delay is the three seconds the function lets pass after the loop.
    In every run the test is evaluated before the wait of the same tick:
    the waits are exactly the failed evaluations, in order. *)
Theorem poll_satisfied_at_first_evaluation :
  (forall (holds : Z -> bool) (cost lag : Z -> Z) (maxWaitTime interval startTime : Z)
          (fuel : nat),
     0 < maxWaitTime -> holds startTime = true -> (1 <= fuel)%nat ->
     poll holds cost lag maxWaitTime interval startTime fuel
       = Some (mkPollRun Satisfied (startTime + cost startTime) [startTime] [])) /\
  (forall (urlAt : Z -> string) (lag : Z -> Z) (startTime : Z) (fuel : nat),
     isPresentationUrl (urlAt startTime) = true -> (1 <= fuel)%nat ->
     waitForPresentationPageRedirect urlAt lag fuel startTime
       = Some (mkPollRun Satisfied (startTime + 0 + 3000 + lag (startTime + 0))
                 [startTime] [])) /\
  (forall (holds : Z -> bool) (cost lag : Z -> Z) (maxWaitTime interval startTime : Z)
          (fuel : nat) (run : PollRun),
     poll holds cost lag maxWaitTime interval startTime fuel = Some run ->
     exists ticks,
       sleptAt run = map (fun t => t + cost t) ticks /\
       Forall (fun t => holds t = false) ticks /\
       match outcome run with
       | Satisfied => exists t, evaluatedAt run = (ticks ++ [t])%list /\ holds t = true
       | TimedOut => evaluatedAt run = ticks
       end).
Proof.
  assert (Hfirst : forall holds cost lag maxWaitTime interval startTime fuel,
             0 < maxWaitTime -> holds startTime = true -> (1 <= fuel)%nat ->
             poll holds cost lag maxWaitTime interval startTime fuel
               = Some (mkPollRun Satisfied (startTime + cost startTime) [startTime] [])).
  { intros holds cost lag maxWaitTime interval startTime fuel Hmax Hnow Hfuel.
    destruct fuel as [| fuel]; [lia |]. unfold poll. simpl.
    replace (startTime - startTime <? maxWaitTime) with true
      by (symmetry; apply Z.ltb_lt; lia).
    now rewrite Hnow. }
  split; [exact Hfirst |]. split.
  - intros urlAt lag startTime fuel Hurl Hfuel. unfold waitForPresentationPageRedirect.
    rewrite Hfirst; auto; lia.
  - intros holds cost lag maxWaitTime interval startTime fuel run Hrun.
    apply pollLoop_evaluates_then_sleeps in Hrun.
    destruct Hrun as (ticks & Hsl & Hall & Hev). exists ticks. simpl in *.
    repeat split; auto. destruct (outcome run); [| exact Hev].
    destruct Hev as (t & Hev & Ht & _). eauto.
Qed.

Lemma poll_satisfied_at_first_evaluation_witness :
  waitForPresentationPageRedirect
      (fun _ => "http://localhost:5000/presentation?id=42") (fun _ => 0) 1 0
    = Some (mkPollRun Satisfied 3000 [0] []) /\
  poll (fun _ => true) (fun _ => 0) (fun _ => 0) 60000 2000 0 1
    = Some (mkPollRun Satisfied 0 [0] []).
Proof.
  destruct poll_satisfied_at_first_evaluation as (Hpoll & Hredirect & _).
  split.
  - apply (Hredirect (fun _ => "http://localhost:5000/presentation?id=42") (fun _ => 0) 0 1%nat).
    + vm_compute. reflexivity.
    + lia.
  - apply (Hpoll (fun _ => true) (fun _ => 0) (fun _ => 0) 60000 2000 0 1%nat).
    + lia.
    + reflexivity.
    + lia.
Defined.

Close Scope Z_scope.

(* ===================================================================== *)
(** * Further properties of the polling loops *)
(* ===================================================================== *)

Open Scope Z_scope.

Section PollStops.

Variable holds : Z -> bool.
Variable cost : Z -> Z.
Variable lag : Z -> Z.
Variables maxWaitTime interval startTime : Z.

Let loop := pollLoop holds cost lag maxWaitTime interval startTime.
Let head := headAfter cost lag interval.
Let heads := loopHeads cost lag interval.

Hypothesis interval_pos : 0 < interval.
Hypothesis cost_nonneg : forall t, 0 <= cost t.
Hypothesis lag_nonneg : forall t, 0 <= lag t.

(** From any loop head, with fuel for the heads that fit before the
    deadline, the loop stops at the first head that is past the deadline
    or at which the test succeeds. *)
Lemma pollLoop_stops (fuel : nat) :
  forall now evals sleeps,
    (1 <= fuel)%nat ->
    startTime + maxWaitTime - now <= (Z.of_nat fuel - 1) * interval ->
    exists n,
      (forall j, (j < n)%nat ->
         head j now - startTime < maxWaitTime /\ holds (head j now) = false) /\
      Z.of_nat n * interval <= head n now - now /\
      (maxWaitTime <= head n now - startTime /\
       loop fuel now evals sleeps
         = Some (mkPollRun TimedOut (head n now) (rev evals ++ heads n now)
                   (rev sleeps ++ map (fun t => t + cost t) (heads n now)))
       \/
       head n now - startTime < maxWaitTime /\ holds (head n now) = true /\
       loop fuel now evals sleeps
         = Some (mkPollRun Satisfied (head n now + cost (head n now))
                   (rev evals ++ heads n now ++ [head n now])
                   (rev sleeps ++ map (fun t => t + cost t) (heads n now)))).
Proof.
  induction fuel as [| fuel IH]; intros now evals sleeps Hfuel Hroom; [lia |].
  simpl. destruct (now - startTime <? maxWaitTime) eqn:Hhead.
  - apply Z.ltb_lt in Hhead. destruct (holds now) eqn:Hnow.
    + exists O. simpl. rewrite !app_nil_r. split; [intros j Hj; lia |].
      split; [lia |]. right. auto.
    + pose proof (cost_nonneg now) as Hc. pose proof (lag_nonneg (now + cost now)) as Hl.
      assert (Hwake : now + interval <= wake cost lag interval now) by (unfold wake; lia).
      destruct (IH (wake cost lag interval now) (now :: evals) (now + cost now :: sleeps))
        as (n & Hbefore & Hlen & Hstop); [nia | nia |].
      exists (S n). split; [| split].
      * intros [| j] Hj; [auto |]. apply Hbefore. lia.
      * rewrite Nat2Z.inj_succ. unfold head in *. simpl. lia.
      * simpl in Hstop. rewrite <- !app_assoc in Hstop. exact Hstop.
  - apply Z.ltb_ge in Hhead. exists O. simpl. rewrite !app_nil_r.
    split; [intros j Hj; lia |]. split; [lia |]. left. split; [lia | reflexivity].
Qed.

End PollStops.

(** X1.  With a positive interval a polling run always ends, and it ends at
    the first loop head that is past the deadline (TimedOut) or at which
    the test succeeds (Satisfied): the test was evaluated, and failed, at
    every earlier head, each of them before the deadline and one wait
    after the previous one. *)
Theorem poll_stops_at_first_success_or_deadline
    (holds : Z -> bool) (cost lag : Z -> Z) (maxWaitTime interval startTime : Z) :
  0 < interval ->
  (forall t, 0 <= cost t) ->
  (forall t, 0 <= lag t) ->
  exists n,
    let head := fun k => headAfter cost lag interval k startTime in
    let before := loopHeads cost lag interval n startTime in
    (forall j, (j < n)%nat -> head j - startTime < maxWaitTime /\ holds (head j) = false) /\
    Z.of_nat n * interval <= head n - startTime /\
    (maxWaitTime <= head n - startTime /\
     (forall fuel, (Z.to_nat (maxWaitTime / interval) + 2 <= fuel)%nat ->
        poll holds cost lag maxWaitTime interval startTime fuel
          = Some (mkPollRun TimedOut (head n) before (map (fun t => t + cost t) before)))
     \/
     head n - startTime < maxWaitTime /\ holds (head n) = true /\
     (forall fuel, (Z.to_nat (maxWaitTime / interval) + 2 <= fuel)%nat ->
        poll holds cost lag maxWaitTime interval startTime fuel
          = Some (mkPollRun Satisfied (head n + cost (head n)) (before ++ [head n])
                    (map (fun t => t + cost t) before)))).
Proof.
  intros Hint Hcost Hlag.
  set (enough := (Z.to_nat (maxWaitTime / interval) + 2)%nat).
  destruct (@pollLoop_stops holds cost lag maxWaitTime interval startTime
              Hint Hcost Hlag enough startTime [] [])
    as (n & Hbefore & Hlen & Hstop).
  - unfold enough. lia.
  - unfold enough. rewrite Nat2Z.inj_add.
    destruct (Z.le_gt_cases 0 maxWaitTime) as [Hpos | Hneg].
    + rewrite Z2Nat.id by (apply Z.div_pos; lia).
      pose proof (Z.mod_pos_bound maxWaitTime interval Hint).
      pose proof (Z.div_mod maxWaitTime interval). nia.
    + assert (0 <= Z.of_nat (Z.to_nat (maxWaitTime / interval))) by lia. nia.
  - exists n. cbv zeta. split; [exact Hbefore |]. split; [exact Hlen |].
    simpl in Hstop. destruct Hstop as [[Hlate Hrun] | (Hearly & Hnow & Hrun)].
    + left. split; [exact Hlate |]. intros fuel Hfuel. unfold poll.
      now apply pollLoop_more_fuel with (fuel := enough).
    + right. split; [exact Hearly |]. split; [exact Hnow |]. intros fuel Hfuel.
      unfold poll. now apply pollLoop_more_fuel with (fuel := enough).
Qed.

Lemma poll_stops_at_first_success_or_deadline_witness :
  exists n,
    let head := fun k => headAfter (fun _ => 0) (fun _ => 0) 10000 k 0 in
    let before := loopHeads (fun _ => 0) (fun _ => 0) 10000 n 0 in
    (forall j, (j < n)%nat -> head j - 0 < 900000 /\ (30000 <=? head j) = false) /\
    Z.of_nat n * 10000 <= head n - 0 /\
    (900000 <= head n - 0 /\
     (forall fuel, (Z.to_nat (900000 / 10000) + 2 <= fuel)%nat ->
        poll (fun t => 30000 <=? t) (fun _ => 0) (fun _ => 0) 900000 10000 0 fuel
          = Some (mkPollRun TimedOut (head n) before (map (fun t => t + 0) before)))
     \/
     head n - 0 < 900000 /\ (30000 <=? head n) = true /\
     (forall fuel, (Z.to_nat (900000 / 10000) + 2 <= fuel)%nat ->
        poll (fun t => 30000 <=? t) (fun _ => 0) (fun _ => 0) 900000 10000 0 fuel
          = Some (mkPollRun Satisfied (head n + 0) (before ++ [head n])
                    (map (fun t => t + 0) before)))).
Proof.
  apply (@poll_stops_at_first_success_or_deadline (fun t => 30000 <=? t)
           (fun _ => 0) (fun _ => 0) 900000 10000 0).
  - lia.
  - intros t. lia.
  - intros t. lia.
Defined.

(** The button that shows 'Loading...' for three ticks and is ready at the
    fourth: the generate-button wait clicks it at the fourth evaluation,
    after three waits of ten seconds. *)
Example generate_button_ready_on_fourth_tick :
  waitForGeneratePresentationButtonToBeReady
      (fun t => if t <? 30000
                then [mkElement (Some "Loading...") true false]
                else [mkElement (Some "Generate Presentation") true true])
      (fun _ => 0) (fun _ => 0) 92 0
    = Some (mkPollRun Satisfied 30000 [0; 10000; 20000; 30000] [0; 10000; 20000]).
Proof. vm_compute. reflexivity. Qed.

(* ===================================================================== *)
(** * Properties of the wait for the outline page *)
(* ===================================================================== *)

Lemma outlineLoop_spec (urlAt : Z -> string) (lag : Z -> Z) :
  (forall t, 0 <= lag t) ->
  forall remaining now checks,
    exists seen,
      let '(outlineReady, finishedAt, allChecks) :=
        outlineLoop urlAt lag remaining now checks in
      allChecks = (rev checks ++ seen)%list /\
      (length seen <= remaining)%nat /\
      Forall (fun t => now + 1000 <= t) seen /\
      now + 1000 * Z.of_nat (length seen) <= finishedAt /\
      (outlineReady = true ->
         exists earlier, seen = (earlier ++ [finishedAt])%list /\
                         includes (urlAt finishedAt) "/outline" = true /\
                         Forall (fun t => includes (urlAt t) "/outline" = false) earlier) /\
      (outlineReady = false ->
         length seen = remaining /\
         Forall (fun t => includes (urlAt t) "/outline" = false) seen).
Proof.
  intros Hlag. induction remaining as [| remaining IH]; intros now checks;
    cbn [outlineLoop].
  - exists []. rewrite app_nil_r. cbn [length].
    split; [reflexivity |]. split; [lia |]. split; [constructor |]. split; [lia |].
    split; [discriminate | auto].
  - pose proof (Hlag now) as Hl. cbv zeta.
    destruct (includes (urlAt (now + 1000 + lag now)) "/outline") eqn:Hurl.
    + exists [now + 1000 + lag now]. cbn [length rev app].
      split; [reflexivity |]. split; [lia |].
      split; [constructor; [lia | constructor] |]. split; [lia |].
      split; [| discriminate]. intros _. exists []. auto.
    + destruct (IH (now + 1000 + lag now) (now + 1000 + lag now :: checks)) as [seen Hseen].
      exists (now + 1000 + lag now :: seen).
      destruct (outlineLoop urlAt lag remaining (now + 1000 + lag now)
                  (now + 1000 + lag now :: checks)) as [[outlineReady finishedAt] allChecks].
      destruct Hseen as (Hall & Hlen & Hlate & Hfin & Hready & Hnot).
      cbn [rev] in Hall. rewrite <- app_assoc in Hall. cbn [app] in Hall.
      cbn [length]. rewrite Nat2Z.inj_succ.
      split; [exact Hall |]. split; [lia |]. split; [| split; [lia | split]].
      * constructor; [lia |]. eapply Forall_impl; [| exact Hlate].
        cbv beta. intros t Ht. lia.
      * intros Htrue. destruct (Hready Htrue) as (earlier & -> & Hout & Hearlier).
        exists (now + 1000 + lag now :: earlier). auto.
      * intros Hfalse. destruct (Hnot Hfalse) as [Hlen' Hnone]. split; [lia | auto].
Qed.

(** X2.  The wait for the outline page sleeps before it looks: the URL is
    first read at least four seconds after the start, even on a page
    that is already on the outline.  It reads the URL at most sixty
    times, one second or more apart, stops at the first reading that
    contains '/outline', and gives up (and goes on) only after sixty
    readings, more than a minute after the start. *)
Theorem outline_wait_sleeps_first_and_is_bounded
    (urlAt : Z -> string) (lag : Z -> Z) (startTime : Z) :
  (forall t, 0 <= lag t) ->
  let '(outlineReady, finishedAt, checks) := waitForOutline urlAt lag startTime in
  (1 <= length checks <= 60)%nat /\
  Forall (fun t => startTime + 4000 <= t) checks /\
  startTime + 3000 + 1000 * Z.of_nat (length checks) <= finishedAt /\
  (outlineReady = true ->
     exists earlier, checks = (earlier ++ [finishedAt])%list /\
                     includes (urlAt finishedAt) "/outline" = true /\
                     Forall (fun t => includes (urlAt t) "/outline" = false) earlier) /\
  (outlineReady = false ->
     length checks = 60%nat /\ startTime + 63000 <= finishedAt /\
     Forall (fun t => includes (urlAt t) "/outline" = false) checks).
Proof.
  intros Hlag. unfold waitForOutline.
  destruct (@outlineLoop_spec urlAt lag Hlag 60%nat (startTime + 3000 + lag startTime) [])
    as [seen Hseen].
  destruct (outlineLoop urlAt lag 60 (startTime + 3000 + lag startTime) [])
    as [[outlineReady finishedAt] checks].
  destruct Hseen as (Hall & Hlen & Hlate & Hfin & Hready & Hnot).
  simpl in Hall. subst checks. pose proof (Hlag startTime) as Hl.
  assert (Hsome : (1 <= length seen)%nat).
  { destruct outlineReady.
    - destruct (Hready eq_refl) as (earlier & -> & _). rewrite length_app. simpl. lia.
    - destruct (Hnot eq_refl) as [-> _]. lia. }
  split; [lia |]. split; [| split; [lia | split]].
  - eapply Forall_impl; [| exact Hlate]. simpl. intros t Ht. lia.
  - exact Hready.
  - intros Hfalse. destruct (Hnot Hfalse) as [Hsixty Hnone].
    split; [exact Hsixty |]. split; [| exact Hnone]. rewrite Hsixty in Hfin. lia.
Qed.

Lemma outline_wait_sleeps_first_and_is_bounded_witness :
  let '(outlineReady, finishedAt, checks) :=
    waitForOutline (fun _ => "http://localhost:5000/outline?id=7") (fun _ => 0) 0 in
  (1 <= length checks <= 60)%nat /\
  Forall (fun t => 0 + 4000 <= t) checks /\
  0 + 3000 + 1000 * Z.of_nat (length checks) <= finishedAt /\
  (outlineReady = true ->
     exists earlier, checks = (earlier ++ [finishedAt])%list /\
                     includes "http://localhost:5000/outline?id=7" "/outline" = true /\
                     Forall (fun t => includes "http://localhost:5000/outline?id=7" "/outline"
                                      = false) earlier) /\
  (outlineReady = false ->
     length checks = 60%nat /\ 0 + 63000 <= finishedAt /\
     Forall (fun t => includes "http://localhost:5000/outline?id=7" "/outline" = false) checks).
Proof.
  apply (@outline_wait_sleeps_first_and_is_bounded
           (fun _ => "http://localhost:5000/outline?id=7") (fun _ => 0) 0).
  intros t. lia.
Defined.

Close Scope Z_scope.

(* ===================================================================== *)
(** * Facts about the string primitives *)
(* ===================================================================== *)

Lemma append_assoc (a b c : string) : (a ++ b) ++ c = a ++ (b ++ c).
Proof. induction a as [| x a IH]; simpl; [reflexivity | now rewrite IH]. Qed.

Lemma prefix_append (sub rest : string) : String.prefix sub (sub ++ rest) = true.
Proof.
  induction sub as [| x sub IH]; simpl; [now destruct rest |].
  destruct (ascii_dec x x); [exact IH | contradiction].
Qed.

Lemma includes_prefix (s sub : string) : String.prefix sub s = true -> includes s sub = true.
Proof. intros H. destruct s; simpl in *; rewrite H; reflexivity. Qed.

Lemma includes_append_r (p s sub : string) :
  includes s sub = true -> includes (p ++ s) sub = true.
Proof.
  intros H. induction p as [| x p IH]; simpl; [exact H |].
  rewrite IH. apply orb_true_r.
Qed.

Lemma includes_middle (p sub rest : string) : includes (p ++ sub ++ rest) sub = true.
Proof. apply includes_append_r, includes_prefix, prefix_append. Qed.

(** A line break ends the first line of a text. *)
Lemma splitLines_first_line (line rest : string) :
  includes line nl = false ->
  splitLines (line ++ String newline rest) = line :: splitLines rest.
Proof.
  induction line as [| c line IH]; intros Hnone; [reflexivity |].
  cbn [includes] in Hnone. apply orb_false_iff in Hnone as [Hc Hline].
  cbn [append splitLines]. destruct (Ascii.eqb c newline) eqn:Heq.
  - apply Ascii.eqb_eq in Heq. subst c. exfalso.
    unfold nl in Hc. cbn [String.prefix] in Hc.
    destruct (ascii_dec newline newline); [| contradiction].
    destruct line; discriminate.
  - now rewrite (IH Hline).
Qed.

Lemma trimEnd_keeps_first (c : ascii) (rest : string) :
  isWhiteSpace c = false -> exists kept, trimEnd (String c rest) = String c kept.
Proof.
  intros Hc. simpl. destruct (trimEnd rest) as [| d kept].
  - rewrite Hc. now exists EmptyString.
  - now exists (String d kept).
Qed.

Lemma trimStart_fixed (c : ascii) (rest : string) :
  isWhiteSpace c = false -> trimStart (String c rest) = String c rest.
Proof. intros Hc. simpl. now rewrite Hc. Qed.

Lemma trimEnd_idempotent (s : string) : trimEnd (trimEnd s) = trimEnd s.
Proof.
  induction s as [| c s IH]; [reflexivity |].
  simpl. destruct (trimEnd s) as [| d kept] eqn:Hs.
  - destruct (isWhiteSpace c) eqn:Hc; [reflexivity |]. simpl. now rewrite Hc.
  - change (trimEnd (String c (String d kept))) with
      (match trimEnd (String d kept) with
       | EmptyString => if isWhiteSpace c then EmptyString else String c EmptyString
       | String e k => String c (String e k)
       end).
    now rewrite IH.
Qed.

(** [trim] leaves no white space at either end: trimming twice changes
    nothing. *)
Lemma trim_idempotent (s : string) : trim (trim s) = trim s.
Proof.
  unfold trim.
  assert (Hstart : forall t, trimStart (trimEnd (trimStart t)) = trimEnd (trimStart t)).
  { induction t as [| c t IH]; [reflexivity |].
    simpl. destruct (isWhiteSpace c) eqn:Hc; [exact IH |].
    destruct (@trimEnd_keeps_first c t Hc) as [kept Hkept].
    change (trimStart (trimEnd (String c t)) = trimEnd (String c t)).
    rewrite Hkept. now apply trimStart_fixed. }
  rewrite Hstart. apply trimEnd_idempotent.
Qed.

(* ===================================================================== *)
(** * Properties of [parseResponseToPresentationData] *)
(* ===================================================================== *)

Lemma parseStep_titles (state : list SlideData * option SlideData) (rawLine : string) :
  map slideTitle (committed (parseStep state rawLine))
    = (map slideTitle (committed state)
       ++ map (fun line => slideTitleOf (trim line)) (titleLines [rawLine]))%list.
Proof.
  destruct state as [done [slide |]]; unfold parseStep, titleLines, committed; simpl;
    destruct (isSlideTitle (trim rawLine)); simpl;
    rewrite ?map_app, ?app_nil_r; simpl; try reflexivity.
Qed.

Lemma fold_parseStep_titles (lines : list string) :
  forall state,
    map slideTitle (committed (fold_left parseStep lines state))
      = (map slideTitle (committed state)
         ++ map (fun line => slideTitleOf (trim line)) (titleLines lines))%list.
Proof.
  induction lines as [| line lines IH]; intros state; simpl.
  - now rewrite app_nil_r.
  - rewrite IH, parseStep_titles. unfold titleLines. simpl.
    destruct (isSlideTitle (trim line)); simpl; now rewrite <- app_assoc.
Qed.

Lemma nonBlankLines_truthy (response first : string) (rest : list string) :
  nonBlankLines response = first :: rest -> truthy (Some first) = true.
Proof.
  intros H. assert (Hin : In first (nonBlankLines response)) by (rewrite H; now left).
  unfold nonBlankLines in Hin. apply filter_In in Hin as [_ Hfirst].
  destruct first; [discriminate | reflexivity].
Qed.

Lemma parse_unfold (response : string) :
  parseResponseToPresentationData response
    = mkPresentation (hd "Generated Presentation" (nonBlankLines response))
        match committed (fold_left parseStep (tl (nonBlankLines response)) ([], None)) with
        | [] => [mkSlide "Content" response]
        | slide :: more => slide :: more
        end.
Proof.
  unfold parseResponseToPresentationData, committed.
  destruct (nonBlankLines response) as [| first rest] eqn:Hlines.
  - reflexivity.
  - rewrite (@nonBlankLines_truthy response first rest Hlines). cbn [tl hd].
    destruct (fold_left parseStep rest ([], None)) as [done [slide |]]; cbn [snd fst].
    + destruct (done ++ [slide])%list; reflexivity.
    + destruct done; reflexivity.
Qed.

(** X3.  The title of the deck is the first non-blank line of the response,
    taken as it is (a heading marker stays, and the line never becomes a
    slide), or 'Generated Presentation' when there is none.  The later
    lines that start with one or two hashes or with a number and a dot,
    followed by white space, become the slides, one each and in order,
    the marker stripped; when there is no such line the deck is the
    single slide 'Content' holding the whole response. *)
Theorem parse_title_and_slides (response : string) :
  let data := parseResponseToPresentationData response in
  let lines := nonBlankLines response in
  title data = hd "Generated Presentation" lines /\
  match titleLines (tl lines) with
  | [] => slides data = [mkSlide "Content" response]
  | first :: more =>
      map slideTitle (slides data)
        = map (fun line => slideTitleOf (trim line)) (first :: more)
  end /\
  length (slides data) = Nat.max 1 (length (titleLines (tl lines))).
Proof.
  cbv zeta. rewrite parse_unfold. cbn [title slides].
  pose proof (fold_parseStep_titles (tl (nonBlankLines response)) ([], None)) as Htitles.
  cbn [committed snd fst map app] in Htitles.
  split; [reflexivity |].
  destruct (titleLines (tl (nonBlankLines response))) as [| first more].
  - destruct (committed (fold_left parseStep (tl (nonBlankLines response)) ([], None)));
      [split; reflexivity | discriminate].
  - destruct (committed (fold_left parseStep (tl (nonBlankLines response)) ([], None)))
      as [| slide others] eqn:Hc; [discriminate |].
    split; [exact Htitles |].
    apply (f_equal (@length string)) in Htitles. rewrite !length_map in Htitles.
    rewrite Htitles. cbn [length]. lia.
Qed.

(** X4.  Whatever stands between the first non-blank line and the first slide
    title is dropped: two responses that differ only there give the same
    deck. *)
Theorem parse_drops_text_before_first_slide
    (response shorter first : string) (dropped kept : list string) :
  nonBlankLines response = (first :: dropped ++ kept)%list ->
  nonBlankLines shorter = first :: kept ->
  titleLines dropped = [] ->
  titleLines kept <> [] ->
  parseResponseToPresentationData response = parseResponseToPresentationData shorter.
Proof.
  intros Hlong Hshort Hnone Hsome. rewrite !parse_unfold, Hlong, Hshort. cbn [hd tl].
  assert (Hskip : fold_left parseStep dropped ([], None) = ([], None)).
  { clear Hlong. induction dropped as [| line dropped IH]; [reflexivity |].
    unfold titleLines in Hnone. simpl in Hnone.
    destruct (isSlideTitle (trim line)) eqn:Hline; [discriminate |].
    cbn [fold_left].
    assert (Hstep : parseStep ([], None) line = ([], None))
      by (unfold parseStep; now rewrite Hline).
    rewrite Hstep. now apply IH. }
  rewrite fold_left_app, Hskip.
  pose proof (fold_parseStep_titles kept ([], None)) as Htitles.
  destruct (committed (fold_left parseStep kept ([], None))) as [| slide more];
    [| reflexivity].
  destruct (titleLines kept); [contradiction | discriminate].
Qed.

Lemma parse_drops_text_before_first_slide_witness :
  parseResponseToPresentationData
      ("Deck" ++ nl ++ "an introduction nobody will see" ++ nl ++ "# One" ++ nl ++ "body")
    = parseResponseToPresentationData ("Deck" ++ nl ++ "# One" ++ nl ++ "body").
Proof.
  apply (@parse_drops_text_before_first_slide _ _ "Deck"
           ["an introduction nobody will see"] ["# One"; "body"]).
  - vm_compute. reflexivity.
  - vm_compute. reflexivity.
  - vm_compute. reflexivity.
  - vm_compute. discriminate.
Defined.

(* ===================================================================== *)
(** * The demo response as a deck *)
(* ===================================================================== *)

Lemma genericDemoTail_lines :
  exists body,
    genericDemoTail = String newline body /\
    fold_left parseStep (nonBlankLines body) ([], None)
      = ([ mkSlide "Introduction"
             ("This is a demonstration of the automated presentation creation system using AI-generated content."
              ++ nl);
           mkSlide "Key Points"
             ("- Point 1: Relevant information about the topic" ++ nl
              ++ "- Point 2: Supporting details and examples" ++ nl
              ++ "- Point 3: Benefits and applications" ++ nl) ],
         Some (mkSlide "Conclusion"
                 ("The automation successfully demonstrates the integration between LLM responses and presentation creation."
                  ++ nl))).
Proof.
  eexists. split; [vm_compute; reflexivity |]. vm_compute. reflexivity.
Qed.

(** X5.  For a one-line prompt that does not mention 'ai in education' (in any
    letter case) the demo response parses into a deck whose title is
    '# Presentation: ' followed by the prompt and whose slides are
    'Introduction', 'Key Points' and 'Conclusion', whatever the prompt. *)
Theorem demo_response_parses_into_three_slides (prompt : string) :
  includes prompt nl = false ->
  includes (toLowerCase prompt) "ai in education" = false ->
  parseResponseToPresentationData (generateDemoResponse prompt)
    = mkPresentation ("# Presentation: " ++ prompt)
        [ mkSlide "Introduction"
            ("This is a demonstration of the automated presentation creation system using AI-generated content."
             ++ nl);
          mkSlide "Key Points"
            ("- Point 1: Relevant information about the topic" ++ nl
             ++ "- Point 2: Supporting details and examples" ++ nl
             ++ "- Point 3: Benefits and applications" ++ nl);
          mkSlide "Conclusion"
            ("The automation successfully demonstrates the integration between LLM responses and presentation creation."
             ++ nl) ].
Proof.
  intros Hline Hgeneric. unfold generateDemoResponse. rewrite Hgeneric.
  destruct genericDemoTail_lines as (body & Htail & Hbody). rewrite Htail.
  rewrite <- append_assoc.
  assert (Hfirst : includes (genericDemoHead ++ prompt) nl = false).
  { unfold genericDemoHead. cbn [append includes String.prefix nl].
    repeat (match goal with
            | |- context [ascii_dec ?a ?b] => destruct (ascii_dec a b); [discriminate |]
            end).
    cbn [orb]. exact Hline. }
  rewrite parse_unfold. unfold nonBlankLines at 1 2.
  rewrite (@splitLines_first_line (genericDemoHead ++ prompt) body Hfirst). cbn [filter].
  assert (Hkeep : negb (String.eqb (trim (genericDemoHead ++ prompt)) EmptyString) = true).
  { unfold genericDemoHead, trim. cbn [append].
    rewrite trimStart_fixed by reflexivity.
    match goal with
    | |- context [trimEnd (String ?c ?rest)] =>
        destruct (@trimEnd_keeps_first c rest eq_refl) as [kept ->]
    end.
    reflexivity. }
  rewrite Hkeep. cbn [hd tl]. fold (nonBlankLines body). rewrite Hbody. reflexivity.
Qed.

Lemma demo_response_parses_into_three_slides_witness :
  title (parseResponseToPresentationData (generateDemoResponse readmePrompt))
    = "# Presentation: " ++ readmePrompt /\
  map slideTitle (slides (parseResponseToPresentationData (generateDemoResponse readmePrompt)))
    = ["Introduction"; "Key Points"; "Conclusion"].
Proof.
  rewrite (@demo_response_parses_into_three_slides readmePrompt);
    [split; reflexivity | vm_compute; reflexivity | vm_compute; reflexivity].
Defined.

(* ===================================================================== *)
(** * Properties of [formatDataForPresenton] *)
(* ===================================================================== *)

Lemma append_empty_r (s : string) : s ++ EmptyString = s.
Proof. induction s as [| c s IH]; simpl; [reflexivity | now rewrite IH]. Qed.

Lemma concat_cons (x : string) (xs : list string) :
  String.concat EmptyString (x :: xs) = x ++ String.concat EmptyString xs.
Proof. destruct xs; simpl; [now rewrite append_empty_r | reflexivity]. Qed.

Lemma formatSlides_blocks (slides : list SlideData) :
  forall index formatted,
    formatSlides index slides formatted
      = formatted
        ++ String.concat EmptyString
             (map (fun '(number, slide) => slideBlock number slide)
                  (combine (seq (index + 1) (length slides)) slides)).
Proof.
  induction slides as [| slide slides IH]; intros index formatted.
  - simpl. now rewrite append_empty_r.
  - cbn [formatSlides length seq combine map]. rewrite IH, concat_cons.
    replace (S index + 1) with (S (index + 1)) by lia.
    unfold slideBlock. rewrite !append_assoc. reflexivity.
Qed.

Lemma blocks_include_slide (slides : list SlideData) :
  forall first slide,
    In slide slides ->
    includes (String.concat EmptyString
                (map (fun '(number, slide) => slideBlock number slide)
                     (combine (seq first (length slides)) slides)))
             (slideTitle slide ++ nl ++ nl ++ content slide) = true.
Proof.
  induction slides as [| s rest IH]; intros first slide Hin; [destruct Hin |].
  cbn [length seq combine map]. rewrite concat_cons.
  destruct Hin as [<- | Hin].
  - unfold slideBlock. rewrite !append_assoc. do 3 apply includes_append_r.
    replace (slideTitle s ++ nl ++ nl ++ content s ++ nl ++ nl ++ _)
      with (EmptyString ++ (slideTitle s ++ nl ++ nl ++ content s)
            ++ (nl ++ nl
                ++ String.concat EmptyString
                     (map (fun '(number, slide) => slideBlock number slide)
                          (combine (seq (S first) (length rest)) rest))))
      by (cbn [append]; rewrite !append_assoc; reflexivity).
    apply includes_middle.
  - apply includes_append_r. now apply IH.
Qed.

(** X6.  The text given to Presenton starts with '# ' and the title, and then
    carries one block per slide, in order and numbered from 1: the line
    '## Slide k: ' with the slide's title, an empty line, the slide's
    content and an empty line.  No slide is left out. *)
Theorem format_numbers_every_slide (data : PresentationData) :
  formatDataForPresenton data
    = "# " ++ title data ++ nl ++ nl
      ++ String.concat EmptyString
           (map (fun '(number, slide) => slideBlock number slide)
                (combine (seq 1 (length (slides data))) (slides data))) /\
  forall slide, In slide (slides data) ->
    includes (formatDataForPresenton data) (slideTitle slide ++ nl ++ nl ++ content slide)
      = true.
Proof.
  assert (Hshape :
    formatDataForPresenton data
      = "# " ++ title data ++ nl ++ nl
        ++ String.concat EmptyString
             (map (fun '(number, slide) => slideBlock number slide)
                  (combine (seq 1 (length (slides data))) (slides data)))).
  { unfold formatDataForPresenton. rewrite formatSlides_blocks.
    rewrite !append_assoc. reflexivity. }
  split; [exact Hshape |].
  intros slide Hin. rewrite Hshape.
  do 4 apply includes_append_r. now apply blocks_include_slide.
Qed.

(* ===================================================================== *)
(** * Further properties of the extraction strategies *)
(* ===================================================================== *)

Lemma readFirstResponse_trimmed (p : Page) (selectors : list string) (s : string) :
  readFirstResponse p selectors = Some s -> trim s = s.
Proof.
  induction selectors as [| selector rest IH]; simpl; [discriminate |].
  destruct (firstMatch p selector) as [e |]; [| exact IH].
  destruct (textContent e) as [text |]; [| exact IH].
  destruct (0 <? String.length (trim text)); [| exact IH].
  intros H. injection H as <-. apply trim_idempotent.
Qed.

(** X7.  What the structural scan returns: the last message, in document
    order, that passes the test of line 928, among the messages of the
    first message selector that has such a message. *)
Theorem fallback_picks_last_qualifying_message (p : Page) (s : string) :
  fallbackStrategy p = Some s ->
  exists query before selector after earlier msg later,
    evaluate p = Some query /\
    messageSelectors = (before ++ selector :: after)%list /\
    (forall skipped, In skipped before -> scanBackward (rev (query skipped)) = None) /\
    query selector = (earlier ++ msg :: later)%list /\
    trimmedText msg = Some s /\ qualifies s = true /\
    forall m, In m later ->
      match trimmedText m with Some t => qualifies t = false | None => True end.
Proof.
  unfold fallbackStrategy. destruct (evaluate p) as [query |]; [| discriminate].
  destruct (scanContainers query messageSelectors) as [text |] eqn:Hscan; [| discriminate].
  destruct (truthy (Some text)); [| discriminate].
  intros H. injection H as <-. exists query.
  revert Hscan. generalize messageSelectors.
  induction l as [| selector rest IH]; simpl; [discriminate |].
  destruct (scanBackward (rev (query selector))) as [found |] eqn:Hsel.
  - intros H. injection H as <-.
    destruct (scanBackward_last _ Hsel) as (earlier & msg & later & Hq & Hmsg & Hqual & Hlater).
    exists [], selector, rest, earlier, msg, later. repeat split; auto. intros ? [].
  - intros H. destruct (IH H)
      as (before & sel & after & earlier & msg & later & _ & -> & Hskip & Hrest).
    exists (selector :: before), sel, after, earlier, msg, later.
    split; [reflexivity |]. split; [reflexivity |]. split; [| exact Hrest].
    intros skipped [<- | Hin]; auto.
Qed.

Lemma fallback_picks_last_qualifying_message_witness :
  exists query before selector after earlier msg later,
    evaluate answeredPage = Some query /\
    messageSelectors = (before ++ selector :: after)%list /\
    (forall skipped, In skipped before -> scanBackward (rev (query skipped)) = None) /\
    query selector = (earlier ++ msg :: later)%list /\
    trimmedText msg = Some answer /\ qualifies answer = true /\
    forall m, In m later ->
      match trimmedText m with Some t => qualifies t = false | None => True end.
Proof.
  apply (@fallback_picks_last_qualifying_message answeredPage answer). reflexivity.
Defined.

Lemma fallbackStrategy_trimmed (p : Page) (s : string) :
  fallbackStrategy p = Some s -> trim s = s.
Proof.
  unfold fallbackStrategy. destruct (evaluate p) as [query |]; [| discriminate].
  destruct (scanContainers query messageSelectors) as [text |] eqn:Hscan; [| discriminate].
  destruct (truthy (Some text)); [| discriminate].
  intros H. injection H as <-. revert Hscan. generalize messageSelectors.
  induction l as [| selector rest IH]; simpl; [discriminate |].
  destruct (scanBackward (rev (query selector))) as [found |] eqn:Hsel; [| exact IH].
  intros H. injection H as <-.
  apply scanBackward_qualifies in Hsel as (_ & msg & _ & Hmsg).
  unfold trimmedText in Hmsg. destruct (textContent msg) as [raw |]; [| discriminate].
  injection Hmsg as <-. apply trim_idempotent.
Qed.

(** X8.  The text returned by the selector cascade and by the structural scan
    has no white space at either end; the page-text mining returns a line
    of the page as it stands. *)
Theorem extracted_text_is_trimmed (p : Page) (r : Extracted) :
  extractLatestResponse p = Ok r ->
  match provenance r with
  | BySelector | ByFallback => trim (payload r) = payload r
  | ByPageText =>
      exists pageText, bodyText p = Some pageText /\ In (payload r) (splitLines pageText)
  end.
Proof.
  unfold extractLatestResponse.
  destruct (selectorStrategy p) as [s1 |] eqn:H1.
  { intros H. injection H as <-. simpl. now apply readFirstResponse_trimmed in H1. }
  destruct (fallbackStrategy p) as [s2 |] eqn:H2.
  { intros H. injection H as <-. simpl. now apply fallbackStrategy_trimmed in H2. }
  destruct (pageTextStrategy p) as [s3 |] eqn:H3; [| discriminate].
  intros H. injection H as <-. simpl. unfold pageTextStrategy in H3.
  destruct (bodyText p) as [pageText |]; [| discriminate].
  destruct (truthy (Some pageText)); [| discriminate].
  exists pageText. split; [reflexivity |].
  apply lastOf_In in H3. unfold potentialResponses in H3.
  apply filter_In in H3 as [H3 _]. now apply filter_In in H3 as [H3 _].
Qed.

Lemma extracted_text_is_trimmed_witness :
  trim (payload (mkExtracted answer ByFallback)) = payload (mkExtracted answer ByFallback).
Proof.
  exact (@extracted_text_is_trimmed answeredPage (mkExtracted answer ByFallback) eq_refl).
Defined.

Lemma filter_twice (A : Type) (f g : A -> bool) (xs : list A) :
  filter g (filter f xs) = filter (fun x => f x && g x) xs.
Proof.
  induction xs as [| x xs IH]; simpl; [reflexivity |].
  destruct (f x); simpl; [destruct (g x); now rewrite IH | exact IH].
Qed.

Lemma lastOf_filter (f : string -> bool) (xs : list string) (x : string) :
  lastOf (filter f xs) = Some x ->
  exists before after,
    xs = (before ++ x :: after)%list /\ f x = true /\
    forall a, In a after -> f a = false.
Proof.
  induction xs as [| a xs IH] using rev_ind; [discriminate |].
  rewrite filter_app. simpl. destruct (f a) eqn:Ha.
  - unfold lastOf. rewrite rev_app_distr. simpl. intros H. injection H as <-.
    exists xs, []. repeat split; auto. intros ? [].
  - rewrite app_nil_r. intros H. destruct (IH H) as (before & after & -> & Hx & Hafter).
    exists before, (after ++ [a])%list. rewrite <- app_assoc. repeat split; auto.
    intros b Hb. apply in_app_or in Hb as [Hb | [<- | []]]; auto.
Qed.

(** X9.  What the page-text mining returns: the last line of the page text
    that is not blank, is longer than 100 characters and contains none of
    'Send a message', 'Enter', 'Type', 'Sign in'.  A long answer line
    that happens to contain one of these words (say 'Enterprise' or
    'Type') is therefore never returned. *)
Theorem page_text_returns_last_long_unmarked_line (p : Page) (s : string) :
  pageTextStrategy p = Some s ->
  exists pageText before after,
    bodyText p = Some pageText /\
    splitLines pageText = (before ++ s :: after)%list /\
    100 < String.length s /\
    includes s "Send a message" = false /\ includes s "Enter" = false /\
    includes s "Type" = false /\ includes s "Sign in" = false /\
    forall line, In line after ->
      (0 <? String.length (trim line)) && looksLikeResponse line = false.
Proof.
  unfold pageTextStrategy. destruct (bodyText p) as [pageText |]; [| discriminate].
  destruct (truthy (Some pageText)); [| discriminate].
  unfold potentialResponses. rewrite filter_twice. intros H.
  apply lastOf_filter in H as (before & after & Hsplit & Hs & Hafter).
  exists pageText, before, after. split; [reflexivity |]. split; [exact Hsplit |].
  apply andb_true_iff in Hs as [_ Hs]. unfold looksLikeResponse in Hs.
  repeat (apply andb_true_iff in Hs as [Hs ?]).
  repeat match goal with H : negb _ = true |- _ => apply negb_true_iff in H end.
  apply Nat.ltb_lt in Hs. repeat split; auto.
Qed.

Lemma page_text_returns_last_long_unmarked_line_witness :
  exists pageText before after,
    bodyText (mkPage (fun _ => Matches []) None (Some (answer ++ nl ++ "Send a message")) "")
      = Some pageText /\
    splitLines pageText = (before ++ answer :: after)%list /\
    100 < String.length answer /\
    includes answer "Send a message" = false /\ includes answer "Enter" = false /\
    includes answer "Type" = false /\ includes answer "Sign in" = false /\
    forall line, In line after ->
      (0 <? String.length (trim line)) && looksLikeResponse line = false.
Proof.
  apply (@page_text_returns_last_long_unmarked_line
           (mkPage (fun _ => Matches []) None (Some (answer ++ nl ++ "Send a message")) "")
           answer).
  vm_compute. reflexivity.
Defined.

(** A long line of the answer that mentions 'Enterprise' is passed over
    by the page-text mining, which then fails. *)
Example page_text_rejects_enterprise_line :
  pageTextStrategy
    (mkPage (fun _ => Matches []) None
       (Some "Enterprise customers benefit most from single sign-on, audit logging, role-based access control and data residency guarantees.")
       "")
    = None.
Proof. vm_compute. reflexivity. Qed.

(* ===================================================================== *)
(** * Further properties of the login check *)
(* ===================================================================== *)

Lemma loginOrSignup_spec (env : Env) :
  match loginOrSignup env with
  | PerformLogin username password =>
      OPENWEBUI_USERNAME env = Some username /\ OPENWEBUI_PASSWORD env = Some password /\
      username <> EmptyString /\ password <> EmptyString
  | SignupIfNeeded =>
      truthy (OPENWEBUI_USERNAME env) && truthy (OPENWEBUI_PASSWORD env) = false
  | ProceedWithoutLogin | ContinueAnyway => False
  end.
Proof.
  unfold loginOrSignup.
  destruct (OPENWEBUI_USERNAME env) as [u |], (OPENWEBUI_PASSWORD env) as [pw |];
    try reflexivity; try (simpl; now rewrite ?andb_false_r).
  destruct (truthy (Some u) && truthy (Some pw)) eqn:Hboth; [| reflexivity].
  apply andb_true_iff in Hboth as [Hu Hpw].
  repeat split; intros ->; simpl in *; discriminate.
Qed.

(** X10.  The login check of the copy with retries, branch by branch: it
    proceeds without login exactly when the URL carries no login pattern
    and one of its three looks (three seconds apart) finds a chat
    indicator; it continues anyway exactly when, under such a URL, no
    look finds a chat indicator and the last page shows no login
    indicator; in every other case it logs in with the configured
    credentials, which are then both non-empty, or goes to the signup
    fallback. *)
Theorem login_check_branches (env : Env) (view : nat -> Page) :
  let branch := LoginWsl.handleLoginIfRequired env view in
  let loginUrl := LoginWsl.isLoginUrl (url (view 0)) in
  let chatAt := fun k => existsb (present (view k)) LoginWsl.chatIndicators in
  let loginShown := existsb (present (view 3)) LoginWsl.loginIndicators in
  (branch = ProceedWithoutLogin <->
     loginUrl = false /\ chatAt 1 || chatAt 2 || chatAt 3 = true) /\
  (branch = ContinueAnyway <->
     loginUrl = false /\ chatAt 1 || chatAt 2 || chatAt 3 = false /\ loginShown = false) /\
  (forall username password, branch = PerformLogin username password ->
     OPENWEBUI_USERNAME env = Some username /\ OPENWEBUI_PASSWORD env = Some password /\
     username <> EmptyString /\ password <> EmptyString) /\
  (branch = SignupIfNeeded ->
     truthy (OPENWEBUI_USERNAME env) && truthy (OPENWEBUI_PASSWORD env) = false).
Proof.
  cbv zeta. unfold LoginWsl.handleLoginIfRequired, LoginWsl.maxAttempts.
  cbn [LoginWsl.chatAvailable].
  pose proof (loginOrSignup_spec env) as Hcred.
  destruct (LoginWsl.isLoginUrl (url (view 0)));
    [| destruct (existsb (present (view 1)) LoginWsl.chatIndicators);
       [| destruct (existsb (present (view 2)) LoginWsl.chatIndicators);
          [| destruct (existsb (present (view 3)) LoginWsl.chatIndicators);
             [| destruct (existsb (present (view 3)) LoginWsl.loginIndicators)]]]];
    cbn [orb];
    try (destruct (loginOrSignup env); try contradiction);
    repeat split; try tauto; try discriminate; try congruence;
    try (intros; intuition congruence).
Qed.

Lemma anyIndicator_found (p : Page) (indicators : list string) :
  LoginBasic.anyIndicator p indicators = Ok true ->
  exists indicator, In indicator indicators /\ present p indicator = true.
Proof.
  induction indicators as [| indicator rest IH]; simpl; [discriminate |].
  destruct (locator p indicator) as [| [| e els]] eqn:Hloc; [discriminate | |].
  - intros H. destruct (IH H) as (i & Hin & Hi). exists i. auto.
  - intros _. exists indicator. split; [now left |].
    unfold present, firstMatch. now rewrite Hloc.
Qed.

Lemma basic_chat_indicators_included :
  incl LoginBasic.chatIndicators LoginWsl.chatIndicators.
Proof.
  intros indicator Hin.
  repeat (destruct Hin as [<- | Hin]; [vm_compute; tauto |]). destruct Hin.
Qed.

(** X11.  The two copies of the login check agree on the chat interface in one
    direction: on a page where the plain copy finds the chat interface,
    the copy with retries finds it at its first look, unless the URL
    carries a login pattern. *)
Theorem retrying_copy_finds_chat_when_plain_copy_does (env : Env) (p : Page) :
  LoginBasic.handleLoginIfRequired env p = Ok ProceedWithoutLogin ->
  LoginWsl.isLoginUrl (url p) = false ->
  LoginWsl.handleLoginIfRequired env (fun _ => p) = ProceedWithoutLogin.
Proof.
  intros Hbasic Hurl. unfold LoginBasic.handleLoginIfRequired in Hbasic.
  destruct (LoginBasic.anyIndicator p LoginBasic.chatIndicators) as [[|] | e] eqn:Hchat;
    try discriminate.
  - apply anyIndicator_found in Hchat as (indicator & Hin & Hpresent).
    apply basic_chat_indicators_included in Hin.
    unfold LoginWsl.handleLoginIfRequired, LoginWsl.maxAttempts. rewrite Hurl.
    cbn [LoginWsl.chatAvailable].
    assert (Hfound : existsb (present p) LoginWsl.chatIndicators = true)
      by (apply existsb_exists; eauto).
    now rewrite Hfound.
  - pose proof (loginOrSignup_spec env) as Hcred.
    destruct (LoginBasic.anyIndicator p LoginBasic.loginIndicators) as [[|] | e'];
      try discriminate.
    injection Hbasic as Hbranch. rewrite Hbranch in Hcred. contradiction.
Qed.

Lemma retrying_copy_finds_chat_when_plain_copy_does_witness :
  LoginWsl.handleLoginIfRequired someCredentials (fun _ => mixedPage) = ProceedWithoutLogin.
Proof.
  apply (@retrying_copy_finds_chat_when_plain_copy_does someCredentials mixedPage);
    vm_compute; reflexivity.
Defined.

(** The converse fails: a chat box that only 'textarea[rows]' matches is
    found by the copy with retries and missed by the plain copy. *)
Example plain_copy_misses_textarea_rows :
  let p := mkPage (fun asked => Matches (only "textarea[rows]" [mkElement (Some "") true true] asked))
                  (Some (fun _ => [])) (Some "") "http://localhost:3000/" in
  LoginWsl.handleLoginIfRequired someCredentials (fun _ => p) = ProceedWithoutLogin /\
  LoginBasic.handleLoginIfRequired someCredentials p = Ok ContinueAnyway.
Proof. vm_compute. split; reflexivity. Qed.

(* ===================================================================== *)
(** * Further properties of the orchestrator *)
(* ===================================================================== *)

(** X12.  Every run of the workflow reaches the creation stage: with the
    extracted response when the extraction returned one, with the demo
    response otherwise.  It logs its completion exactly when the creation
    stage succeeded, and its result is the error of the creation stage
    otherwise; on an automator whose browser was never started this error
    is 'Browser not initialized', met only after the demo fallback. *)
Theorem workflow_always_reaches_creation (w : World) (prompt : string) :
  let '(stages, result) := automateFullWorkflow w prompt in
  let llmResponse :=
    match extractFromOpenWebUI w prompt with
    | Ok response => response
    | Err _ => generateDemoResponse prompt
    end in
  hd_error stages = Some (Extracting prompt) /\
  In (Creating llmResponse) stages /\
  reachedCreation stages = true /\
  (In Completed stages <-> result = Ok tt) /\
  (forall e, result = Err e <-> createPresentationInPresenton w llmResponse = Err e) /\
  (browser w = false ->
     stages = [ Extracting prompt; UsingDemoResponse BrowserNotInitialized;
                Parsing (generateDemoResponse prompt);
                Creating (generateDemoResponse prompt) ] /\
     result = Err BrowserNotInitialized).
Proof.
  unfold automateFullWorkflow, createPresentationInPresenton, extractFromOpenWebUI.
  destruct (browser w) eqn:Hb.
  - destruct (snd (sendPromptAndGetResponse (login w) (session w) prompt)) as [r | e];
      cbv zeta iota beta;
      match goal with
      | |- context [createPresentation w ?text] =>
          destruct (createPresentation w text) as [[] | e'] eqn:Hc
      end; simpl;
      repeat split; auto; try discriminate; try congruence;
      try (intros; intuition (discriminate || congruence)).
  - simpl. repeat split; auto; try discriminate; try congruence;
      try (intros; intuition (discriminate || congruence)).
Qed.

(* ===================================================================== *)
(** * Properties of the final generate-button cascade *)
(* ===================================================================== *)

Lemma firstWorthClicking_find (buttons : list Element) :
  firstWorthClicking buttons = find worthClicking buttons.
Proof.
  induction buttons as [| b rest IH]; simpl; [reflexivity |].
  destruct (worthClicking b); [reflexivity | exact IH].
Qed.

Lemma find_append (A : Type) (f : A -> bool) (xs ys : list A) :
  find f (xs ++ ys) = match find f xs with Some x => Some x | None => find f ys end.
Proof.
  induction xs as [| x xs IH]; simpl; [reflexivity |].
  destruct (f x); [reflexivity | exact IH].
Qed.

Lemma clickFinalGenerateButton_find (p : Page) (selectors : list string) :
  option_map snd (clickFinalGenerateButton p selectors)
    = find worthClicking (flat_map (allMatches p) selectors).
Proof.
  induction selectors as [| selector rest IH]; simpl; [reflexivity |].
  rewrite find_append. unfold allMatches at 1.
  destruct (locator p selector) as [| buttons]; simpl; [exact IH |].
  rewrite firstWorthClicking_find.
  destruct (find worthClicking buttons); [reflexivity | exact IH].
Qed.

Lemma clickFinalGenerateButton_sound (p : Page) (selectors : list string) :
  forall selector button,
    clickFinalGenerateButton p selectors = Some (selector, button) ->
    In selector selectors /\ In button (allMatches p selector) /\
    enabled button = true /\ visible button = true.
Proof.
  induction selectors as [| sel rest IH]; simpl; [discriminate |].
  intros selector button. unfold allMatches in *.
  destruct (locator p sel) as [| buttons] eqn:Hloc.
  - intros H. destruct (IH _ _ H) as (Hin & Hrest). split; [now right | exact Hrest].
  - rewrite firstWorthClicking_find.
    destruct (find worthClicking buttons) as [b |] eqn:Hb.
    + intros H. injection H as <- <-. apply find_some in Hb as [Hin Hworth].
      rewrite Hloc. unfold worthClicking in Hworth.
      apply andb_true_iff in Hworth as [Hworth _].
      apply andb_true_iff in Hworth as [Hen Hvis]. auto.
    + intros H. destruct (IH _ _ H) as (Hin & Hrest). split; [now right | exact Hrest].
Qed.

(** X13.  Unlike the cascades that look at [first()] only, the loop of
    [findAndClickFinalGenerateButton] goes through every match of every
    selector: the button it clicks is the first one, selectors taken in
    order and the matches of each in document order, that is enabled,
    visible and has text that is not blank; it clicks none exactly when
    no match of any selector is such a button. *)
Theorem final_cascade_considers_every_match (p : Page) (selectors : list string) :
  option_map snd (clickFinalGenerateButton p selectors)
    = find worthClicking (flat_map (allMatches p) selectors) /\
  (forall selector button,
     clickFinalGenerateButton p selectors = Some (selector, button) ->
     In selector selectors /\ In button (allMatches p selector) /\
     enabled button = true /\ visible button = true) /\
  (clickFinalGenerateButton p selectors = None <->
     forall selector button,
       In selector selectors -> In button (allMatches p selector) ->
       worthClicking button = false).
Proof.
  pose proof (clickFinalGenerateButton_find p selectors) as Hfind.
  split; [exact Hfind |]. split; [apply clickFinalGenerateButton_sound |]. split.
  - intros Hnone selector button Hsel Hbutton. rewrite Hnone in Hfind. simpl in Hfind.
    symmetry in Hfind.
    apply (find_none _ _ Hfind button). apply in_flat_map. eauto.
  - intros Hall. destruct (clickFinalGenerateButton p selectors) as [[sel b] |] eqn:Hclick;
      [| reflexivity].
    simpl in Hfind. symmetry in Hfind. apply find_some in Hfind as [Hin Hworth].
    apply in_flat_map in Hin as (selector & Hsel & Hb).
    rewrite (Hall selector b Hsel Hb) in Hworth. discriminate.
Qed.

(** On the page with a disabled and a ready 'Generate' button the final
    cascade clicks the ready one, where [findAndClickGenerateButton]
    found nothing. *)
Example final_cascade_clicks_second_match :
  clickFinalGenerateButton twoButtonsPage generateButtonSelectors
    = Some ("button:has-text(" ++ q "Generate" ++ ")", readyGenerate) /\
  findAndClickGenerateButton twoButtonsPage = None.
Proof. vm_compute. split; reflexivity. Qed.

(* ===================================================================== *)
(** * Properties of the content entry in Presenton *)
(* ===================================================================== *)

Lemma repeat_snoc (A : Type) (x : A) (n : nat) : (repeat x n ++ [x])%list = repeat x (S n).
Proof. induction n as [| n IH]; simpl; [reflexivity | now rewrite IH]. Qed.

Lemma fillTextInput_in (p : Page) (selectors : list string) (selector : string) :
  fillTextInput p selectors = Some selector -> In selector selectors.
Proof.
  induction selectors as [| s rest IH]; simpl; [discriminate |].
  destruct (firstMatch p s) as [input |]; [| auto].
  destruct (actionable input); [| auto]. intros H. injection H as <-. now left.
Qed.

Lemma upload_events_shape (view : nat -> Page) (data : PresentationData) (fuel : nat) :
  forall round events,
    handlePresentonUploadInterface fuel view round data = Some events ->
    exists clicked filled,
      events = (map ClickAction clicked
                ++ match filled with
                   | Some selector => [FillInput selector (formatDataForPresenton data)]
                   | None => []
                   end
                ++ repeat GenerateStage (length clicked + 1))%list /\
      (forall selector, filled = Some selector -> In selector textInputSelectors) /\
      (length clicked < fuel)%nat.
Proof.
  induction fuel as [| fuel IH]; intros round events; [discriminate |].
  cbn [handlePresentonUploadInterface].
  destruct (fillTextInput (view round) textInputSelectors) as [selector |] eqn:Hfill.
  - intros H. injection H as <-. exists [], (Some selector). simpl.
    split; [reflexivity |]. split; [| lia].
    intros s Hs. injection Hs as <-. now apply fillTextInput_in in Hfill.
  - unfold tryAlternativeUploadMethods.
    destruct (clickOneOf (view round) actionButtons) as [buttonSelector |].
    + destruct (handlePresentonUploadInterface fuel view (S round) data) as [inner |] eqn:Hinner;
        [| discriminate].
      simpl. intros H. injection H as <-.
      destruct (IH _ _ Hinner) as (clicked & filled & -> & Hfilled & Hlen).
      exists (buttonSelector :: clicked), filled. split; [| split; [exact Hfilled | simpl; lia]].
      cbn [map length app]. rewrite <- !app_assoc. rewrite repeat_snoc.
      replace (length clicked + 1) with (S (length clicked)) by lia.
      replace (S (length clicked) + 1) with (S (S (length clicked))) by lia. reflexivity.
    + simpl. intros H. injection H as <-. exists [], None. simpl.
      split; [reflexivity |]. split; [discriminate | lia].
Qed.

(** X14.  Each call of [handlePresentonUploadInterface] ends with the generate
    stage, also the calls that handed over to a nested call through
    [tryAlternativeUploadMethods]: after [n] clicks on an action button
    the generate-button search and the wait for the generation run
    [n + 1] times, all of them after the input was filled (at most once,
    with the formatted deck).  The entry through the main interface only
    puts one click on a create button in front. *)
Theorem generate_stage_runs_once_per_call
    (fuel : nat) (entry : Page) (view : nat -> Page) (data : PresentationData)
    (events : list UploadEvent) :
  analyzeAndCreatePresentation fuel entry view data = Some events ->
  exists created clicked filled,
    events = (match created with Some button => [ClickCreate button] | None => [] end
              ++ map ClickAction clicked
              ++ match filled with
                 | Some selector => [FillInput selector (formatDataForPresenton data)]
                 | None => []
                 end
              ++ repeat GenerateStage (length clicked + 1))%list /\
    (includes (url entry) "/upload" = true -> created = None) /\
    generateStages events = actionClicks events + 1.
Proof.
  assert (Hcount : forall created clicked filled,
    let events :=
      (match created with Some button => [ClickCreate button] | None => [] end
       ++ map ClickAction clicked
       ++ match filled with
          | Some selector => [FillInput selector (formatDataForPresenton data)]
          | None => []
          end
       ++ repeat GenerateStage (length clicked + 1))%list in
    generateStages events = actionClicks events + 1).
  { intros created clicked filled. cbv zeta. unfold generateStages, actionClicks.
    rewrite !filter_app, !length_app.
    assert (Hc1 : forall l, length (filter (fun ev => match ev with GenerateStage => true
                                                      | _ => false end)
                                           (map ClickAction l)) = 0).
    { induction l; simpl; auto. }
    assert (Hc2 : forall l, length (filter (fun ev => match ev with ClickAction _ => true
                                                      | _ => false end)
                                           (map ClickAction l)) = length l).
    { induction l; simpl; auto. }
    assert (Hg1 : forall n, length (filter (fun ev => match ev with GenerateStage => true
                                                      | _ => false end)
                                           (repeat GenerateStage n)) = n).
    { induction n; simpl; auto. }
    assert (Hg2 : forall n, length (filter (fun ev => match ev with ClickAction _ => true
                                                      | _ => false end)
                                           (repeat GenerateStage n)) = 0).
    { induction n; simpl; auto. }
    rewrite Hc1, Hc2, Hg1, Hg2. destruct created, filled; simpl; lia. }
  unfold analyzeAndCreatePresentation, handlePresentonMainInterface.
  destruct (includes (url entry) "/upload") eqn:Hurl.
  - intros H. destruct (upload_events_shape _ _ _ _ H) as (clicked & filled & -> & _ & _).
    exists None, clicked, filled. split; [reflexivity |]. split; [reflexivity |].
    apply (Hcount None).
  - destruct (clickOneOf entry createButtons) as [button |].
    + destruct (handlePresentonUploadInterface fuel view 0 data) as [inner |] eqn:Hinner;
        [| discriminate].
      simpl. intros H. injection H as <-.
      destruct (upload_events_shape _ _ _ _ Hinner) as (clicked & filled & -> & _ & _).
      exists (Some button), clicked, filled. split; [reflexivity |].
      split; [discriminate |]. apply (Hcount (Some button)).
    + intros H. destruct (upload_events_shape _ _ _ _ H) as (clicked & filled & -> & _ & _).
      exists None, clicked, filled. split; [reflexivity |]. split; [reflexivity |].
      apply (Hcount None).
Qed.

Lemma generate_stage_runs_once_per_call_witness :
  analyzeAndCreatePresentation 2 addTextPage revealingView sampleDeck
    = Some [ ClickAction ".add-content";
             FillInput "textarea" (formatDataForPresenton sampleDeck);
             GenerateStage; GenerateStage ] /\
  exists created clicked filled,
    [ ClickAction ".add-content";
      FillInput "textarea" (formatDataForPresenton sampleDeck);
      GenerateStage; GenerateStage ]
      = (match created with Some button => [ClickCreate button] | None => [] end
         ++ map ClickAction clicked
         ++ match filled with
            | Some selector => [FillInput selector (formatDataForPresenton sampleDeck)]
            | None => []
            end
         ++ repeat GenerateStage (length clicked + 1))%list /\
    (includes (url addTextPage) "/upload" = true -> created = None) /\
    generateStages [ ClickAction ".add-content";
                     FillInput "textarea" (formatDataForPresenton sampleDeck);
                     GenerateStage; GenerateStage ]
      = actionClicks [ ClickAction ".add-content";
                       FillInput "textarea" (formatDataForPresenton sampleDeck);
                       GenerateStage; GenerateStage ] + 1.
Proof.
  split; [vm_compute; reflexivity |].
  apply (@generate_stage_runs_once_per_call 2 addTextPage revealingView sampleDeck).
  vm_compute. reflexivity.
Defined.

(** [handlePresentonUploadInterface] returns within [fuel] calls exactly
    when one of the first [fuel] pages it sees settles the matter: an
    input can be filled, or no action button can be clicked. *)
Lemma upload_returns_iff (view : nat -> Page) (data : PresentationData) (fuel : nat) :
  forall round,
    handlePresentonUploadInterface fuel view round data <> None <->
    exists k, k < fuel /\ settles (view (round + k)) = true.
Proof.
  induction fuel as [| fuel IH]; intros round.
  - split; [intros H; now contradiction H | intros (k & Hk & _); lia].
  - cbn [handlePresentonUploadInterface]. unfold tryAlternativeUploadMethods.
    destruct (fillTextInput (view round) textInputSelectors) as [selector |] eqn:Hfill.
    + split; [| discriminate]. intros _. exists 0. rewrite Nat.add_0_r.
      split; [lia |]. unfold settles. now rewrite Hfill.
    + destruct (clickOneOf (view round) actionButtons) as [button |] eqn:Hclick.
      * assert (Hhere : settles (view round) = false)
          by (unfold settles; now rewrite Hfill, Hclick).
        specialize (IH (S round)).
        destruct (handlePresentonUploadInterface fuel view (S round) data) as [inner |];
          simpl.
        -- split; [| discriminate]. intros _.
           destruct (proj1 IH) as (k & Hk & Hsettles); [discriminate |].
           exists (S k). split; [lia |]. now rewrite Nat.add_succ_r.
        -- split; [intros H; now contradiction H |].
           intros ([| k] & Hk & Hsettles).
           ++ rewrite Nat.add_0_r in Hsettles. congruence.
           ++ exfalso. apply (proj2 IH); [| reflexivity].
              exists k. split; [lia |]. now rewrite Nat.add_succ_r in Hsettles.
      * simpl. split; [| discriminate]. intros _. exists 0. rewrite Nat.add_0_r.
        split; [lia |]. unfold settles. now rewrite Hfill, Hclick.
Qed.

(** X15.  The content entry of Presenton ends if and only if, at some call, a
    text input can be filled or no action button can be clicked.  On a
    page that keeps offering a clickable action button and never shows a
    text input, [handlePresentonUploadInterface] and
    [tryAlternativeUploadMethods] call each other without end. *)
Theorem upload_interface_ends_iff_a_page_settles
    (view : nat -> Page) (data : PresentationData) :
  ((exists fuel, handlePresentonUploadInterface fuel view 0 data <> None) <->
   exists k, settles (view k) = true) /\
  ((forall k, settles (view k) = false) ->
   forall fuel, handlePresentonUploadInterface fuel view 0 data = None) /\
  (forall k, settles (view k) = true ->
   exists events, handlePresentonUploadInterface (S k) view 0 data = Some events).
Proof.
  split; [| split].
  - split.
    + intros (fuel & H). apply upload_returns_iff in H as (k & _ & Hk). eauto.
    + intros (k & Hk). exists (S k). apply upload_returns_iff. exists k. split; [lia | exact Hk].
  - intros Hnever fuel.
    destruct (handlePresentonUploadInterface fuel view 0 data) as [events |] eqn:Hrun;
      [| reflexivity].
    assert (Hret : handlePresentonUploadInterface fuel view 0 data <> None)
      by (rewrite Hrun; discriminate).
    apply upload_returns_iff in Hret as (k & _ & Hk). simpl in Hk.
    rewrite Hnever in Hk. discriminate.
  - intros k Hk.
    assert (Hret : handlePresentonUploadInterface (S k) view 0 data <> None)
      by (apply upload_returns_iff; exists k; split; [lia | exact Hk]).
    destruct (handlePresentonUploadInterface (S k) view 0 data) as [events |];
      [eauto | contradiction].
Qed.

Lemma upload_interface_ends_iff_a_page_settles_witness :
  (forall fuel, handlePresentonUploadInterface fuel (fun _ => addTextPage) 0 sampleDeck = None) /\
  exists events, handlePresentonUploadInterface 2 revealingView 0 sampleDeck = Some events.
Proof.
  destruct (upload_interface_ends_iff_a_page_settles (fun _ => addTextPage) sampleDeck)
    as (_ & Hnever & _).
  destruct (upload_interface_ends_iff_a_page_settles revealingView sampleDeck)
    as (_ & _ & Hends).
  split.
  - apply Hnever. intros k. vm_compute. reflexivity.
  - apply (Hends 1). vm_compute. reflexivity.
Defined.

(* ===================================================================== *)
(** * Properties of one tick of the generate-button wait *)
(* ===================================================================== *)

Lemma readyButton_spec (states : list Element) (text : string) :
  readyButton states = Some text -> isGenerateText (toLowerCase text) = true.
Proof.
  induction states as [| btnState rest IH]; simpl; [discriminate |].
  destruct (textContent btnState) as [t |]; [| exact IH].
  destruct (isGenerateText (toLowerCase t) && enabled btnState) eqn:Hready; [| exact IH].
  intros H. injection H as <-. now apply andb_true_iff in Hready as [Hready _].
Qed.

Lemma clickByText_spec (buttons : list Element) (text : string) :
  clickByText buttons text = true ->
  exists button buttonText,
    In button buttons /\ textContent button = Some buttonText /\
    trim buttonText = text /\ actionable button = true.
Proof.
  induction buttons as [| button rest IH]; cbn [clickByText]; [discriminate |].
  destruct (textContent button) as [buttonText |] eqn:Htext.
  - destruct (truthy (Some buttonText) && String.eqb (trim buttonText) text) eqn:Hsame.
    + intros Hact. apply andb_true_iff in Hsame as [_ Hsame].
      apply String.eqb_eq in Hsame. exists button, buttonText.
      split; [now left | auto].
    + intros H. destruct (IH H) as (b & bt & Hin & Hrest). exists b, bt.
      split; [now right | exact Hrest].
  - intros H. destruct (IH H) as (b & bt & Hin & Hrest). exists b, bt.
    split; [now right | exact Hrest].
Qed.

(** X16.  A tick of the generate-button wait reports a click only if the page
    has a button that is visible and enabled and whose trimmed text, in
    lower case, contains 'presentation' together with 'generate',
    'create' or 'build': that button is the one clicked. *)
Theorem generate_tick_clicks_only_a_ready_button (allButtons : list Element) :
  generateButtonTick allButtons = true ->
  exists button buttonText,
    In button allButtons /\ textContent button = Some buttonText /\
    visible button = true /\ enabled button = true /\
    isGenerateText (toLowerCase (trim buttonText)) = true.
Proof.
  unfold generateButtonTick.
  destruct (readyButton (buttonStates allButtons)) as [text |] eqn:Hready; [| discriminate].
  intros Hclick. apply readyButton_spec in Hready.
  apply clickByText_spec in Hclick as (button & buttonText & Hin & Htext & <- & Hact).
  apply andb_true_iff in Hact as [Hvis Hen]. exists button, buttonText. auto.
Qed.

Lemma generate_tick_clicks_only_a_ready_button_witness :
  exists button buttonText,
    In button [disabledGenerate; readyGenerate] /\ textContent button = Some buttonText /\
    visible button = true /\ enabled button = true /\
    isGenerateText (toLowerCase (trim buttonText)) = true.
Proof.
  apply (@generate_tick_clicks_only_a_ready_button [disabledGenerate; readyGenerate]).
  vm_compute. reflexivity.
Defined.

(** The converse fails: a hidden button with the same text earlier in the
    document takes the click, which raises, and the tick reports none. *)
Example hidden_twin_blocks_the_click :
  generateButtonTick [ mkElement (Some "Generate Presentation") false true;
                       mkElement (Some "Generate Presentation") true true ] = false.
Proof. vm_compute. reflexivity. Qed.

(* ===================================================================== *)
(** * Further properties of prompt submission *)
(* ===================================================================== *)



